(** * serpy: the field compiler and the serialization engine

    A shallow embedding of [serpy/fields.py] and [serpy/serializer.py].

    Python code that can raise is embedded in a state-and-exception monad
    [M] over an abstract world [World]: getters, called values and
    converters are arbitrary user code, so they may raise and may have
    effects.  Python dictionaries keep insertion order, so they are
    association lists whose update keeps the position of a key that is
    already present. *)

From Stdlib Require Import List String Ascii ZArith Bool Lia.
Import ListNotations.
Local Open Scope string_scope.
Set Warnings "-register-all".

(** ** Exceptions *)

(** The exception classes the code mentions or that the modelled built-ins
    raise.  A constructor stands for every instance of that class, its
    subclasses included (that is what an [except] clause matches);
    [OtherException] is a class deriving from none of the others. *)
Inductive exn_class : Type :=
| KeyError
| AttributeError
| TypeError
| ValueError
| IndexError
| RuntimeError
| OtherException (name : string).

Record exn : Type := Exn { exn_cls : exn_class; exn_msg : string }.

Inductive result (A : Type) : Type :=
| Ok (a : A)
| Raise (e : exn).
Arguments Ok {A} a.
Arguments Raise {A} e.

(** [except (KeyError, AttributeError)] of [Serializer._serialize]. *)
Definition is_KeyError_or_AttributeError (e : exn) : bool :=
  match exn_cls e with
  | KeyError | AttributeError => true
  | _ => false
  end.

(** ** Python dictionaries with string keys *)

Definition pydict (V : Type) : Type := list (string * V).

Fixpoint dict_get {V : Type} (d : pydict V) (k : string) : option V :=
  match d with
  | [] => None
  | (k', v) :: d' => if String.eqb k' k then Some v else dict_get d' k
  end.

(** [d[k] = v]: a present key keeps its position and takes the new value, a
    new key goes to the end. *)
Fixpoint dict_set {V : Type} (d : pydict V) (k : string) (v : V) : pydict V :=
  match d with
  | [] => [(k, v)]
  | (k', v') :: d' =>
      if String.eqb k' k then (k', v) :: d' else (k', v') :: dict_set d' k v
  end.

(** [del d[k]] for a key that is present. *)
Fixpoint dict_del {V : Type} (d : pydict V) (k : string) : pydict V :=
  match d with
  | [] => []
  | (k', v') :: d' =>
      if String.eqb k' k then d' else (k', v') :: dict_del d' k
  end.

(** [d.update(other)]: the items of [other], in their order. *)
Definition dict_update {V : Type} (d other : pydict V) : pydict V :=
  fold_left (fun acc kv => dict_set acc (fst kv) (snd kv)) other d.

Definition dict_keys {V : Type} (d : pydict V) : list string := map fst d.

Definition mem_string (k : string) (l : list string) : bool :=
  existsb (String.eqb k) l.

(** The keys of a sequence in the order of their first occurrence. *)
Fixpoint first_occurrences (seen l : list string) : list string :=
  match l with
  | [] => []
  | k :: l' =>
      if mem_string k seen then first_occurrences seen l'
      else k :: first_occurrences (seen ++ [k]) l'
  end.

(** [s.split(".")] *)
Fixpoint split_dots_aux (cur : string) (s : string) : list string :=
  match s with
  | EmptyString => [cur]
  | String c s' =>
      if Ascii.eqb c "."%char then cur :: split_dots_aux "" s'
      else split_dots_aux (cur ++ String c "") s'
  end.

Definition split_dots (s : string) : list string := split_dots_aux "" s.

Section Serpy.

Context {World : Type}.

(** ** The monad of Python computations *)

Definition M (A : Type) : Type := World -> result A * World.

Definition ret {A : Type} (a : A) : M A := fun w => (Ok a, w).

Definition raise {A : Type} (e : exn) : M A := fun w => (Raise e, w).

Definition bind {A B : Type} (m : M A) (k : A -> M B) : M B :=
  fun w =>
    match m w with
    | (Ok a, w') => k a w'
    | (Raise e, w') => (Raise e, w')
    end.

Notation "x <- m ;; k" := (bind m (fun x => k))
  (at level 61, m at next level, right associativity).

(** ** Python values *)

(** The subjects and the values of the serialized output.  [VObj] is an
    instance with the given attributes, [VCallable] a callable of no argument
    (its body may raise and may have effects). *)
Inductive value : Type :=
| VNone
| VBool (b : bool)
| VInt (z : Z)
| VStr (s : string)
| VList (l : list value)
| VDict (d : list (string * value))
| VObj (attrs : list (string * value))
| VCallable (body : World -> result value * World).

(** [v is None] *)
Definition is_None (v : value) : bool :=
  match v with
  | VNone => true
  | _ => false
  end.

(** [v()] *)
Definition py_call (v : value) : M value :=
  match v with
  | VCallable body => body
  | _ => raise (Exn TypeError "object is not callable")
  end.

(** [getattr(obj, name)]; the attributes of built-in values are not
    modelled. *)
Definition py_getattr (obj : value) (name : string) : M value :=
  match obj with
  | VObj attrs =>
      match dict_get attrs name with
      | Some v => ret v
      | None => raise (Exn AttributeError name)
      end
  | _ => raise (Exn AttributeError name)
  end.

Fixpoint getattr_path (names : list string) (obj : value) : M value :=
  match names with
  | [] => ret obj
  | n :: names' => o <- py_getattr obj n ;; getattr_path names' o
  end.

(** [operator.attrgetter(attr)], dotted names included. *)
Definition attrgetter (attr : string) : value -> M value :=
  getattr_path (split_dots attr).

(** [operator.itemgetter(key)] for a string key: [obj[key]]. *)
Definition itemgetter (key : string) (obj : value) : M value :=
  match obj with
  | VDict d =>
      match dict_get d key with
      | Some v => ret v
      | None => raise (Exn KeyError key)
      end
  | VList _ | VStr _ =>
      raise (Exn TypeError "indices must be integers")
  | _ => raise (Exn TypeError "object is not subscriptable")
  end.

(** ** fields.py *)

(** The instance attributes [Field.__init__] stores. *)
Record FieldAttrs : Type := {
  attr : option string;
  call : bool;
  label : option string;
  required : bool
}.

(** [Field.__init__(self, attr=None, call=False, label=None, required=True)] *)
Definition Field___init__ (attr : option string) (call : bool)
    (label : option string) (required : bool) : FieldAttrs :=
  {| attr := attr; call := call; label := label; required := required |}.

Definition Field_defaults : FieldAttrs := Field___init__ None false None true.

(** A serializer instance: a [Field] (the serializer classes derive from it)
    with the attributes [Serializer.__init__] adds. *)
Record SerializerInstance : Type := {
  self_field : FieldAttrs;
  instance : value;
  many : bool;
  _data : value
}.

(** A function defined in the body of a serializer class: [f(self, obj)]. *)
Definition method : Type := SerializerInstance -> value -> M value.

(** An object used as a getter, given by what calling it does:
    [getter(instance)] and [getter(self, instance)]. *)
Record Getter : Type := {
  call_unary : value -> M value;
  call_binary : SerializerInstance -> value -> M value
}.

(** A callable of one argument (the object), a function of two (the
    serializer and the object), and an object that is not callable; a call
    with the wrong number of arguments raises [TypeError]. *)
Definition UnaryGetter (f : value -> M value) : Getter :=
  {| call_unary := f;
     call_binary :=
       fun _ _ => raise (Exn TypeError "expected 1 argument, got 2") |}.

Definition BinaryGetter (f : method) : Getter :=
  {| call_unary :=
       fun _ => raise (Exn TypeError "missing 1 required positional argument");
     call_binary := f |}.

Definition NotCallable : Getter :=
  {| call_unary := fun _ => raise (Exn TypeError "object is not callable");
     call_binary := fun _ _ => raise (Exn TypeError "object is not callable") |}.

(** What a field sees of the serializer class it is compiled for: the
    default getter, a factory that gives a getter for every string, as
    [operator.attrgetter] and [operator.itemgetter] do; and
    [getattr(serializer_cls, name)], which raises when the class has no such
    attribute and gives [None] when the attribute is [None]. *)
Record ClassAttrs : Type := {
  default_getter : string -> value -> M value;
  class_getattr : string -> result (option Getter)
}.

(** What [self.to_value] evaluates to on a field, given by what the code
    asks of it: the call, [isinstance(to_value, types.MethodType)], the
    truth of [getattr(to_value, '_serpy_base_implementation', False)] (for a
    bound method, an attribute of its function) and the truth value of the
    object itself. *)
Record to_value_attr : Type := {
  tv_call : value -> M value;
  tv_is_method : bool;
  tv_base_marker : bool;
  tv_truthy : bool
}.

(** The bound method [Field.to_value]; line 60 of fields.py sets the marker
    on its function. *)
Definition BaseToValue : to_value_attr :=
  {| tv_call := fun value => ret value; tv_is_method := true;
     tv_base_marker := true; tv_truthy := true |}.

(** A [to_value] method defined in a subclass, bound to the field. *)
Definition MethodToValue (f : value -> M value) : to_value_attr :=
  {| tv_call := f; tv_is_method := true; tv_base_marker := false;
     tv_truthy := true |}.

(** A function or a built-in type that is not a bound method
    ([staticmethod(int)]): true, and without the marker. *)
Definition PlainToValue (f : value -> M value) : to_value_attr :=
  {| tv_call := f; tv_is_method := false; tv_base_marker := false;
     tv_truthy := true |}.

(** [isinstance(to_value, types.MethodType)] *)
Definition isinstance_MethodType (t : to_value_attr) : bool :=
  tv_is_method t.

(** [getattr(to_value, '_serpy_base_implementation', False)] *)
Definition _serpy_base_implementation (t : to_value_attr) : bool :=
  tv_base_marker t.


(** A field: its instance attributes, and what its class defines. *)
Record Field : Type := {
  field_attrs :> FieldAttrs;
  getter_takes_serializer : bool;
  to_value : to_value_attr;
  as_getter : string -> ClassAttrs -> result (option Getter)
}.

(** [Field._is_to_value_overridden] *)
Definition Field__is_to_value_overridden (self : Field) : bool :=
  let to_value := to_value self in
  if negb (isinstance_MethodType to_value) then true
  else negb (_serpy_base_implementation to_value).

(** [Field.as_getter] *)
Definition Field_as_getter (serializer_field_name : string)
    (serializer_cls : ClassAttrs) : result (option Getter) :=
  Ok None.

(** [MethodField.as_getter]: [getattr(serializer_cls, method_name)], whatever
    the attribute is. *)
Definition MethodField_as_getter (method : option string)
    (serializer_field_name : string) (serializer_cls : ClassAttrs)
    : result (option Getter) :=
  let method_name :=
    match method with
    | None => "get_" ++ serializer_field_name
    | Some m => m
    end in
  class_getattr serializer_cls method_name.

Definition mkField (a : FieldAttrs) : Field :=
  {| field_attrs := a; getter_takes_serializer := false;
     to_value := BaseToValue; as_getter := Field_as_getter |}.

(** [MethodField(method, **kwargs)] *)
Definition MethodField (method : option string) (a : FieldAttrs) : Field :=
  {| field_attrs := a; getter_takes_serializer := true;
     to_value := BaseToValue; as_getter := MethodField_as_getter method |}.

Section Builtins.

(** Python's [str], [int], [float] and [bool]. *)
Variables builtin_str builtin_int builtin_float builtin_bool :
  value -> M value.

Definition StrField (a : FieldAttrs) : Field :=
  {| field_attrs := a; getter_takes_serializer := false;
     to_value := PlainToValue builtin_str; as_getter := Field_as_getter |}.

Definition IntField (a : FieldAttrs) : Field :=
  {| field_attrs := a; getter_takes_serializer := false;
     to_value := PlainToValue builtin_int; as_getter := Field_as_getter |}.

Definition FloatField (a : FieldAttrs) : Field :=
  {| field_attrs := a; getter_takes_serializer := false;
     to_value := PlainToValue builtin_float; as_getter := Field_as_getter |}.

Definition BoolField (a : FieldAttrs) : Field :=
  {| field_attrs := a; getter_takes_serializer := false;
     to_value := PlainToValue builtin_bool; as_getter := Field_as_getter |}.

End Builtins.

(** ** serializer.py *)

(** [x or y] on an optional string: [None] and the empty string are false. *)
Definition py_or (x : option string) (y : string) : string :=
  match x with
  | None => y
  | Some "" => y
  | Some s => s
  end.

(** A class of [serializer_cls.__mro__] as [_get_fields] reads it:
    [issubclass(cls, SerializerBase)] and [cls._field_map]. *)
Record MroClass : Type := {
  issubclass_SerializerBase : bool;
  mro__field_map : pydict Field
}.

(** The class [type.__new__] returns, before the metaclass attaches
    [_field_map] and [_compiled_fields] to it. *)
Record SerializerCls : Type := {
  cls_attrs :> ClassAttrs;
  __mro__ : list MroClass
}.

(** An entry of [_compiled_fields]:
    [(name, getter, to_value, call, required, getter_takes_serializer)];
    [to_value] is [None] or the object [field.to_value]. *)
Definition compiled_field : Type :=
  (string * Getter * option to_value_attr * bool * bool * bool)%type.

(** The output label and the getter of a compiled field. *)
Definition label_of (f : compiled_field) : string :=
  let '(name, _, _, _, _, _) := f in name.

Definition getter_of (f : compiled_field) : Getter :=
  let '(_, getter, _, _, _, _) := f in getter.

(** [_compile_field_to_tuple] *)
Definition _compile_field_to_tuple (field : Field) (name : string)
    (serializer_cls : SerializerCls) : result compiled_field :=
  match as_getter field name serializer_cls with
  | Raise e => Raise e
  | Ok g =>
      let getter :=
        match g with
        | Some getter => getter
        | None =>
            UnaryGetter (default_getter serializer_cls (py_or (attr field) name))
        end in
      let to_value :=
        if Field__is_to_value_overridden field
        then Some (to_value field)
        else None in
      let name := py_or (label field) name in
      Ok (name, getter, to_value, call field, required field,
          getter_takes_serializer field)
  end.

(** [SerializerMeta._get_fields] *)
Definition SerializerMeta__get_fields (direct_fields : pydict Field)
    (serializer_cls : SerializerCls) : pydict Field :=
  let field_map :=
    fold_left
      (fun field_map cls =>
         if issubclass_SerializerBase cls
         then dict_update field_map (mro__field_map cls)
         else field_map)
      (rev (__mro__ serializer_cls)) [] in
  dict_update field_map direct_fields.

(** The field maps [_get_fields] merges before the direct fields, oldest
    ancestor first, and their merge. *)
Definition merge_sequence (serializer_cls : SerializerCls)
    : list (pydict Field) :=
  map mro__field_map
    (filter issubclass_SerializerBase (rev (__mro__ serializer_cls))).

Definition inherited_fields (serializer_cls : SerializerCls) : pydict Field :=
  fold_left dict_update (merge_sequence serializer_cls) [].

(** [SerializerMeta._compile_fields]; the first field that fails to compile
    ends the comprehension. *)
Fixpoint SerializerMeta__compile_fields (field_map : pydict Field)
    (serializer_cls : SerializerCls) : result (list compiled_field) :=
  match field_map with
  | [] => Ok []
  | (name, field) :: rest =>
      match _compile_field_to_tuple field name serializer_cls with
      | Raise e => Raise e
      | Ok t =>
          match SerializerMeta__compile_fields rest serializer_cls with
          | Raise e => Raise e
          | Ok ts => Ok (t :: ts)
          end
      end
  end.

(** An attribute of a class body: a field, a function [f(self, obj)], a
    getter factory for [default_getter] (with what the factory does when it
    is itself called as a getter), or any other value. *)
Inductive class_attr : Type :=
| AField (field : Field)
| AMethod (f : method)
| AGetterFactory (g : string -> value -> M value) (as_object : Getter)
| AOther (v : value).

(** A serializer class as the metaclass leaves it. *)
Record SerializerClass : Type := {
  real_cls :> SerializerCls;
  _field_map : pydict Field;
  _compiled_fields : list compiled_field
}.

(** [SerializerMeta.__new__]; [type___new__] is [type.__new__] applied to
    the metaclass, the name and the bases: it returns the class or raises
    (bases without a consistent MRO, for one). *)
Definition SerializerMeta___new__
    (type___new__ : pydict class_attr -> result SerializerCls)
    (attrs : pydict class_attr) : result SerializerClass :=
  let direct_fields :=
    fold_left
      (fun direct_fields kv =>
         match snd kv with
         | AField field => dict_set direct_fields (fst kv) field
         | _ => direct_fields
         end)
      attrs [] in
  let attrs := fold_left (fun attrs k => dict_del attrs k)
                 (dict_keys direct_fields) attrs in
  match type___new__ attrs with
  | Raise e => Raise e
  | Ok real_cls =>
      let field_map := SerializerMeta__get_fields direct_fields real_cls in
      match SerializerMeta__compile_fields field_map real_cls with
      | Raise e => Raise e
      | Ok compiled_fields =>
          Ok {| real_cls := real_cls; _field_map := field_map;
                _compiled_fields := compiled_fields |}
      end
  end.

(** [Serializer.__init__(self, instance=None, many=False, data=None,
    context=None, **kwargs)]; [kwargs] are the arguments handed on to
    [Field.__init__]. *)
Definition Serializer___init__ (instance : value) (many : bool)
    (data : value) (context : value) (kwargs : FieldAttrs)
    : result SerializerInstance :=
  if negb (is_None data) then
    Raise (Exn RuntimeError "serpy serializers do not support input validation")
  else
    Ok {| self_field :=
            Field___init__ (attr kwargs) (call kwargs) (label kwargs)
              (required kwargs);
          instance := instance; many := many; _data := VNone |}.

(** The loop of [Serializer._serialize] over the fields that are left, [v]
    being the dictionary built so far. *)
Fixpoint _serialize_loop (self : SerializerInstance) (instance : value)
    (fields : list compiled_field) (v : pydict value) : M (pydict value) :=
  match fields with
  | [] => ret v
  | (name, getter, to_value, call, required, pass_self) :: fields' =>
      if pass_self : bool then
        result <- call_binary getter self instance ;;
        _serialize_loop self instance fields' (dict_set v name result)
      else
        fun w =>
          match call_unary getter instance w with
          | (Raise e, w') =>
              if is_KeyError_or_AttributeError e then
                if required : bool then (Raise e, w')
                else _serialize_loop self instance fields' v w'
              else (Raise e, w')
          | (Ok result, w') =>
              (result <-
                 (if required || negb (is_None result) then
                    result <- (if call : bool then py_call result
                               else ret result) ;;
                    match to_value with
                    | Some to_value =>
                        if tv_truthy to_value then tv_call to_value result
                        else ret result
                    | None => ret result
                    end
                  else ret result) ;;
               _serialize_loop self instance fields' (dict_set v name result))
                w'
          end
  end.

(** [Serializer._serialize] *)
Definition Serializer__serialize (self : SerializerInstance)
    (instance : value) (fields : list compiled_field) : M (pydict value) :=
  _serialize_loop self instance fields [].

(** [for o in instance]: the elements Python iterates over. *)
Definition py_iter (v : value) : result (list value) :=
  match v with
  | VList l => Ok l
  | VDict d => Ok (map (fun kv => VStr (fst kv)) d)
  | VStr s => Ok (map (fun c => VStr (String c "")) (list_ascii_of_string s))
  | _ => Raise (Exn TypeError "object is not iterable")
  end.

Fixpoint serialize_each (self : SerializerInstance)
    (fields : list compiled_field) (os : list value) : M (list value) :=
  match os with
  | [] => ret []
  | o :: os' =>
      d <- Serializer__serialize self o fields ;;
      ds <- serialize_each self fields os' ;;
      ret (VDict d :: ds)
  end.

(** [Serializer.to_value] *)
Definition Serializer_to_value (cls : SerializerClass)
    (self : SerializerInstance) (instance : value) : M value :=
  let fields := _compiled_fields cls in
  if many self then
    match py_iter instance with
    | Raise e => raise e
    | Ok os => l <- serialize_each self fields os ;; ret (VList l)
    end
  else
    d <- Serializer__serialize self instance fields ;; ret (VDict d).

(** [Serializer.data]: the value read, the instance after the read and the
    world after it. *)
Definition Serializer_data (cls : SerializerClass)
    (self : SerializerInstance) (w : World)
    : result value * SerializerInstance * World :=
  if is_None (_data self) then
    match Serializer_to_value cls self (instance self) w with
    | (Ok r, w') =>
        let self' :=
          {| self_field := self_field self; instance := instance self;
             many := many self; _data := r |} in
        (Ok (_data self'), self', w')
    | (Raise e, w') => (Raise e, self, w')
    end
  else (Ok (_data self), self, w).

(** [Serializer.default_getter] and [DictSerializer.default_getter] *)
Definition Serializer_default_getter : string -> value -> M value :=
  attrgetter.

Definition DictSerializer_default_getter : string -> value -> M value :=
  itemgetter.

(** ** The classes of serializer.py *)

(** [SerializerBase.__mro__]: [SerializerBase], [Field], [object]. *)
Definition SerializerBase_mro : list MroClass :=
  [ {| issubclass_SerializerBase := true; mro__field_map := [] |};
    {| issubclass_SerializerBase := false; mro__field_map := [] |};
    {| issubclass_SerializerBase := false; mro__field_map := [] |} ].

(** An attribute of a class body as [getattr] on the class returns it:
    [None], or an object with what calling it does.  A function is called
    with the serializer and the object; a field, a number, a string are not
    callable, and a callable of no argument raises [TypeError] as well when
    it is given arguments. *)
Definition body_attribute (a : class_attr) : option Getter :=
  match a with
  | AMethod f => Some (BinaryGetter f)
  | AGetterFactory _ as_object => Some as_object
  | AOther VNone => None
  | AOther _ => Some NotCallable
  | AField _ => Some NotCallable
  end.

(** [type.__new__] for [class C(base)] with the class body [attrs]: the
    attributes of the body hide those of [base], and [__doc__] is [None]
    when the body has no docstring; [base] and its ancestors follow the new
    class in the MRO, and [_field_map], read on the new class before the
    metaclass sets it, is the one of [base]. *)
Definition type___new___subclass (base : SerializerClass)
    (attrs : pydict class_attr) : SerializerCls :=
  let inherited_view :=
    {| issubclass_SerializerBase := true;
       mro__field_map := _field_map base |} in
  {| cls_attrs :=
       {| default_getter :=
            match dict_get attrs "default_getter" with
            | Some (AGetterFactory g _) => g
            | _ => default_getter base
            end;
          class_getattr :=
            fun name =>
              match dict_get attrs name with
              | Some a => Ok (body_attribute a)
              | None =>
                  if String.eqb name "__doc__" then Ok None
                  else class_getattr base name
              end |};
     __mro__ := inherited_view :: inherited_view :: tl (__mro__ base) |}.

Section Classes.

(** [getattr(Serializer, name)]: the functions and properties of
    [Serializer], the attributes of [SerializerBase], [Field] and [object],
    and those of the metaclass.  What some of them do when called needs the
    class of the serializer, so the table is taken as it is. *)
Variable Serializer_getattr : string -> result (option Getter).

(** [operator.itemgetter] as an attribute of a class: what calling it as a
    getter does. *)
Variable itemgetter_as_getter : Getter.

(** [Serializer]: no field of its own, attribute access by default. *)
Definition Serializer : SerializerClass :=
  {| real_cls :=
       {| cls_attrs := {| default_getter := Serializer_default_getter;
                          class_getattr := Serializer_getattr |};
          __mro__ :=
            {| issubclass_SerializerBase := true; mro__field_map := [] |}
            :: SerializerBase_mro |};
     _field_map := [];
     _compiled_fields := [] |}.

(** [DictSerializer]: [Serializer] with item access by default. *)
Definition DictSerializer : SerializerClass :=
  {| real_cls :=
       type___new___subclass Serializer
         [("default_getter",
           AGetterFactory DictSerializer_default_getter itemgetter_as_getter)];
     _field_map := [];
     _compiled_fields := [] |}.

(** The classes obtained from [Serializer] by single inheritance, each one
    created by the metaclass from a class body (a dictionary, so without a
    repeated name). *)
Inductive single_inheritance : SerializerClass -> Prop :=
| single_Serializer : single_inheritance Serializer
| single_subclass (base cls : SerializerClass) (attrs : pydict class_attr) :
    single_inheritance base ->
    NoDup (dict_keys attrs) ->
    SerializerMeta___new__
      (fun body => Ok (type___new___subclass base body)) attrs = Ok cls ->
    single_inheritance cls.

End Classes.

(** ** Notions used to state the properties of the code *)

(** A serializer instance declared as a field of another serializer
    ([inner = InnerSerializer()] in a class body): the serializer classes
    derive from [Field], so the instance carries the attributes
    [Field.__init__] stored, the class attributes of [Field], and, as
    [to_value], the bound method [Serializer.to_value]. *)
Definition Serializer_as_Field (cls : SerializerClass)
    (self : SerializerInstance) : Field :=
  {| field_attrs := self_field self; getter_takes_serializer := false;
     to_value := MethodToValue (Serializer_to_value cls self);
     as_getter := Field_as_getter |}.

(** [isinstance(field, Field)] on an attribute of a class body. *)
Definition is_AField (a : class_attr) : bool :=
  match a with
  | AField _ => true
  | _ => false
  end.

(** The two loops of [SerializerMeta.__new__] over the class body: the
    fields it collects, and the body it hands to [type.__new__]. *)
Definition class_body_fields (attrs : pydict class_attr) : pydict Field :=
  fold_left
    (fun direct_fields kv =>
       match snd kv with
       | AField field => dict_set direct_fields (fst kv) field
       | _ => direct_fields
       end)
    attrs [].

Definition class_body_without_fields (attrs : pydict class_attr)
    : pydict class_attr :=
  fold_left (fun attrs k => dict_del attrs k)
    (dict_keys (class_body_fields attrs)) attrs.

(** The [Field] attributes of a class body, in declaration order. *)
Definition body_field_items (attrs : pydict class_attr) : pydict Field :=
  flat_map
    (fun kv =>
       match snd kv with
       | AField field => [(fst kv, field)]
       | _ => []
       end)
    attrs.

(** The merge of the field maps of the classes that follow a class in its
    MRO. *)
Definition ancestors_fields (cls : SerializerCls) : pydict Field :=
  fold_left dict_update
    (map mro__field_map
       (filter issubclass_SerializerBase (rev (tl (__mro__ cls))))) [].

(** A record that writes its label whenever its field runs through: the
    field is required or takes the serializer. *)
Definition always_writes (f : compiled_field) : bool :=
  let '(_, _, _, _, required, pass_self) := f in required || pass_self.

(** The record [Field(required=required)] compiles to under the name [name]
    in a class whose default getter is [itemgetter]. *)
Definition item_record (required : bool) (name : string) : compiled_field :=
  (name, UnaryGetter (itemgetter name), None, false, required, false).

(** The items of [d] under the names [names], in the order of [names]. *)
Definition project (d : pydict value) (names : list string) : pydict value :=
  flat_map
    (fun name =>
       match dict_get d name with
       | Some v => [(name, v)]
       | None => []
       end)
    names.

(** The first of [names] that is not a key of [d]. *)
Definition first_missing (d : pydict value) (names : list string)
    : option string :=
  find (fun name =>
          match dict_get d name with
          | Some _ => false
          | None => true
          end)
       names.

(** ** The reference engine

    The engine of the specification without the identity optimization: every
    record of the plan carries the transform of its descriptor, and the
    engine applies it whenever it processes a retrieved value. *)









End Serpy.

(** ** Example definitions

    The world of the examples counts the calls of the instrumented
    getters. *)

Local Abbreviation Val := (@value nat).
Local Abbreviation Py := (@M nat).

Definition counted (g : Val -> Py Val) : Val -> Py Val :=
  fun obj w => g obj (S w).

(** Python's [int] on the values of the examples.  A string is stripped of
    the white space around it and read as an optional sign and decimal
    digits, single underscores between digits allowed. *)
Definition is_space (c : ascii) : bool :=
  let n := nat_of_ascii c in
  (Nat.leb 9 n && Nat.leb n 13) || (Nat.leb 28 n && Nat.leb n 32).

Fixpoint lstrip (s : string) : string :=
  match s with
  | EmptyString => EmptyString
  | String c s' => if is_space c then lstrip s' else s
  end.

Fixpoint rstrip (s : string) : string :=
  match s with
  | EmptyString => EmptyString
  | String c s' =>
      match rstrip s' with
      | EmptyString => if is_space c then EmptyString else String c EmptyString
      | t => String c t
      end
  end.

Fixpoint digits_value (acc : Z) (after_digit : bool) (s : string)
    : option Z :=
  match s with
  | EmptyString => if after_digit then Some acc else None
  | String c s' =>
      let n := nat_of_ascii c in
      if Nat.leb 48 n && Nat.leb n 57
      then digits_value (10 * acc + Z.of_nat (n - 48)) true s'
      else if Ascii.eqb c "_"%char && after_digit
           then digits_value acc false s'
           else None
  end.

Definition int_of_string (s : string) : option Z :=
  match rstrip (lstrip s) with
  | String "+"%char digits => digits_value 0 false digits
  | String "-"%char digits => option_map Z.opp (digits_value 0 false digits)
  | digits => digits_value 0 false digits
  end.

Definition example_int (v : Val) : Py Val :=
  match v with
  | VInt z => ret (VInt z)
  | VBool b => ret (VInt (if b then 1 else 0))
  | VStr s =>
      match int_of_string s with
      | Some z => ret (VInt z)
      | None => raise (Exn ValueError "invalid literal for int()")
      end
  | _ => raise (Exn TypeError "int() argument must be a string or a number")
  end.

(** [getattr(Serializer, name)] for the examples: the attributes that
    serializer.py and fields.py define on [Serializer] are found, the names
    the example bodies use are not attributes of [Serializer].  The examples
    only ask whether a name is found: what the found attributes do when they
    are called is not described ([to_value] and [__init__] need the class of
    the serializer or assign to it), and the attributes of [object] and of
    the metaclass are not listed. *)
Definition defined_on_Serializer : list string :=
  ["default_getter"; "__init__"; "_serialize"; "to_value"; "data";
   "_field_map"; "_compiled_fields"; "getter_takes_serializer";
   "_is_to_value_overridden"; "as_getter"].

Definition example_getattr (name : string)
    : result (option (Getter (World := nat))) :=
  if mem_string name defined_on_Serializer then Ok (Some NotCallable)
  else Raise (Exn AttributeError name).

(** [operator.itemgetter] called as a getter returns an itemgetter object,
    which the examples do not use. *)
Definition example_itemgetter_object : Getter (World := nat) :=
  {| call_unary := fun _ => ret (VObj []);
     call_binary := fun _ _ => ret (VObj []) |}.

Definition Serializer_class : SerializerClass (World := nat) :=
  Serializer example_getattr.

Definition DictSerializer_class : SerializerClass (World := nat) :=
  DictSerializer example_getattr example_itemgetter_object.

Definition optional : FieldAttrs := Field___init__ None false None false.

(** [class PersonSerializer(DictSerializer)] with a required [name], an
    optional [nickname] and an optional integer [age]. *)
Definition person_fields : pydict (Field (World := nat)) :=
  [("name", mkField Field_defaults);
   ("nickname", mkField optional);
   ("age", IntField example_int optional)].

Definition name_record : compiled_field (World := nat) :=
  ("name", UnaryGetter (itemgetter "name"), None, false, true, false).

Definition nickname_record : compiled_field (World := nat) :=
  ("nickname", UnaryGetter (itemgetter "nickname"), None, false, false, false).

Definition age_record : compiled_field (World := nat) :=
  ("age", UnaryGetter (itemgetter "age"), Some (PlainToValue example_int),
   false, false, false).

Definition a_serializer (subject : Val)
    : SerializerInstance :=
  {| self_field := Field_defaults; instance := subject; many := false;
     _data := VNone |}.

Definition ann : Val :=
  VDict [("name", VStr "Ann"); ("nickname", VNone); ("age", VStr "41")].

Definition ann_without_nickname : Val :=
  VDict [("name", VStr "Ann"); ("age", VStr "41")].

Definition ann_of_bad_age : Val :=
  VDict [("name", VStr "Ann"); ("nickname", VNone); ("age", VStr "old")].

(** The [FooSerializer] of the documentation of [MethodField]. *)
Definition int_attr (obj : Val) (name : string) : Py Z :=
  bind (py_getattr obj name)
       (fun v =>
          match v with
          | VInt z => ret z
          | _ => raise (Exn TypeError "unsupported operand type(s)")
          end).

Definition get_plus : method (World := nat) :=
  fun self foo_obj =>
    bind (int_attr foo_obj "bar")
         (fun bar => bind (int_attr foo_obj "baz")
                          (fun baz => ret (VInt (bar + baz)))).

Definition do_minus : method (World := nat) :=
  fun self foo_obj =>
    bind (int_attr foo_obj "bar")
         (fun bar => bind (int_attr foo_obj "baz")
                          (fun baz => ret (VInt (bar - baz)))).

Definition Foo_attrs : pydict (class_attr (World := nat)) :=
  [("plus", AField (MethodField None Field_defaults));
   ("minus", AField (MethodField (Some "do_minus") Field_defaults));
   ("get_plus", AMethod get_plus);
   ("do_minus", AMethod do_minus)].

Definition foo : Val :=
  VObj [("bar", VInt 5); ("baz", VInt 10)].

(** A class whose only getter counts its calls. *)
Definition CountingSerializer : SerializerClass (World := nat) :=
  {| real_cls := type___new___subclass DictSerializer_class [];
     _field_map := [];
     _compiled_fields :=
       [("name", UnaryGetter (counted (itemgetter "name")), None, false, true,
         false)] |}.

(** [class A(Serializer): a = Field(); b = Field()] and the direct fields of
    [class B(A): b = Field(attr='other'); c = Field()]. *)
Definition A_fields : pydict (Field (World := nat)) :=
  [("a", mkField Field_defaults); ("b", mkField Field_defaults)].

Definition A_class : SerializerClass (World := nat) :=
  {| real_cls := type___new___subclass Serializer_class [];
     _field_map := A_fields;
     _compiled_fields :=
       [("a", UnaryGetter (attrgetter "a"), None, false, true, false);
        ("b", UnaryGetter (attrgetter "b"), None, false, true, false)] |}.

(** The class bodies of [A] and of [class B(A)], and a body whose
    [MethodField] has no method. *)
Definition A_body : pydict (class_attr (World := nat)) :=
  [("a", AField (mkField Field_defaults));
   ("b", AField (mkField Field_defaults))].

Definition B_body : pydict (class_attr (World := nat)) :=
  [("c", AField (mkField Field_defaults));
   ("helper", AMethod get_plus);
   ("b", AField (mkField (Field___init__ (Some "other") false None true)))].

Definition body_without_method : pydict (class_attr (World := nat)) :=
  [("total", AField (MethodField None Field_defaults));
   ("do_minus", AMethod do_minus)].

(** [PersonSerializer], and instances of it. *)
Definition PersonSerializer : SerializerClass (World := nat) :=
  {| real_cls := type___new___subclass DictSerializer_class [];
     _field_map := person_fields;
     _compiled_fields := [name_record; nickname_record; age_record] |}.

Definition many_serializer (subjects : Val) : SerializerInstance :=
  {| self_field := Field_defaults; instance := subjects; many := true;
     _data := VNone |}.

Definition people : Val := VList [ann; ann_without_nickname].

Definition people_with_a_stranger : Val := VList [ann; VDict []; ann].

Definition ann_serialized : Val :=
  VDict [("name", VStr "Ann"); ("nickname", VNone); ("age", VInt 41)].

(** A plan of required records, two of them under the label [plus]. *)
Definition plus_minus_plus : list (compiled_field (World := nat)) :=
  [("plus", BinaryGetter get_plus, None, false, true, true);
   ("minus", BinaryGetter do_minus, None, false, true, true);
   ("plus", UnaryGetter (attrgetter "baz"), None, false, true, false)].

(** Two transforms that turn every value into [0]: a callable object whose
    truth value is false (its [__len__] returns 0) set as [to_value], and an
    overriding method wrapped with [functools.wraps(Field.to_value)], which
    copies the marker [_serpy_base_implementation] on it. *)
Definition to_zero : Val -> Py Val := fun _ => ret (VInt 0).

Definition falsy_to_zero : to_value_attr (World := nat) :=
  {| tv_call := to_zero; tv_is_method := false; tv_base_marker := false;
     tv_truthy := false |}.


Definition falsy_field : Field (World := nat) :=
  {| field_attrs := Field_defaults; getter_takes_serializer := false;
     to_value := falsy_to_zero; as_getter := Field_as_getter |}.


Definition falsy_record : compiled_field (World := nat) :=
  ("x", UnaryGetter (itemgetter "x"), Some falsy_to_zero, false, true, false).

Definition x_is_one : Val := VDict [("x", VInt 1)].

(** An object whose attribute [age] is a method that counts its calls and
    returns a string; the record reads it, calls it and converts the
    result. *)
Definition told_age : nat -> result Val * nat :=
  fun w => (Ok (VStr " 41 "), S w).

Definition shy : Val := VObj [("age", VCallable told_age)].

Definition called_age_record : compiled_field (World := nat) :=
  ("age", UnaryGetter (attrgetter "age"), Some (PlainToValue example_int),
   true, false, false).

(** An object whose attribute [owner] is a person. *)
Definition a_pet : Val := VObj [("owner", ann)].

(** [Field(attr='', label='')] *)
Definition empty_names_field : Field (World := nat) :=
  mkField (Field___init__ (Some "") false (Some "") true).

(** * Properties *)

(** ** Dictionaries *)

Lemma dict_get_set_same {V : Type} (d : pydict V) (k : string) (v : V) :
  dict_get (dict_set d k v) k = Some v.
Proof.
  induction d as [| [k' v'] d IH]; cbn.
  - now rewrite String.eqb_refl.
  - destruct (String.eqb k' k) eqn:E; cbn; rewrite E; auto.
Qed.

Lemma dict_get_set_other {V : Type} (d : pydict V) (k k' : string) (v : V) :
  k' <> k -> dict_get (dict_set d k' v) k = dict_get d k.
Proof.
  intros Hne. induction d as [| [k0 v0] d IH]; cbn.
  - destruct (String.eqb k' k) eqn:E; [| reflexivity].
    apply String.eqb_eq in E. contradiction.
  - destruct (String.eqb k0 k') eqn:E0; cbn.
    + apply String.eqb_eq in E0. subst k0.
      destruct (String.eqb k' k) eqn:E; [| reflexivity].
      apply String.eqb_eq in E. contradiction.
    + now rewrite IH.
Qed.

Section EngineProperties.

Context {World : Type}.

Notation "x <- m ;; k" := (bind m (fun x => k))
  (at level 61, m at next level, right associativity).

Implicit Types (self : SerializerInstance (World := World))
  (subject : value (World := World)) (w : World).

Lemma bind_ret_l {A B : Type} (a : A) (k : A -> M B) (w : World) :
  bind (ret a) k w = k a w.
Proof. reflexivity. Qed.

Lemma bind_assoc {A B C : Type} (m : M A) (k : A -> M B) (h : B -> M C)
    (w : World) :
  bind (bind m k) h w = bind m (fun a => bind (k a) h) w.
Proof.
  unfold bind. destruct (m w) as [[a | e] w']; reflexivity.
Qed.

Lemma bind_unfold {A B : Type} (m : M A) (k : A -> M B) (w : World) :
  bind m k w =
  match m w with
  | (Ok a, w') => k a w'
  | (Raise e, w') => (Raise e, w')
  end.
Proof. reflexivity. Qed.

Lemma bind_ext {A B : Type} (m : M A) (k k' : A -> M B) (w : World) :
  (forall a w', k a w' = k' a w') -> bind m k w = bind m k' w.
Proof.
  intros H. unfold bind. destruct (m w) as [[a | e] w']; auto.
Qed.

(** Running the loop over [pre ++ post] is running it over [pre] and then,
    if nothing was raised, over [post] from the dictionary reached. *)
Lemma _serialize_loop_app self subject pre post :
  forall v w,
    _serialize_loop self subject (pre ++ post) v w =
    bind (_serialize_loop self subject pre v)
         (_serialize_loop self subject post) w.
Proof.
  induction pre as [| [[[[[name getter] to_value] call] required] pass_self]
                      pre IH]; intros v w.
  - reflexivity.
  - cbn [app _serialize_loop]. destruct pass_self.
    + rewrite bind_assoc. apply bind_ext. intros; apply IH.
    + rewrite (bind_unfold (fun w0 => _)). cbv beta.
      destruct (call_unary getter subject w) as [[r | e] w1].
      * rewrite <- bind_unfold, bind_assoc. apply bind_ext. intros; apply IH.
      * destruct (is_KeyError_or_AttributeError e); [| reflexivity].
        destruct required; [reflexivity | apply IH].
Qed.

(** The serialization of a plan whose prefix [pre] ran through. *)
Lemma _serialize_after_prefix self subject pre post w0 v w :
  _serialize_loop self subject pre [] w0 = (Ok v, w) ->
  Serializer__serialize self subject (pre ++ post) w0 =
  _serialize_loop self subject post v w.
Proof.
  intros Hpre. unfold Serializer__serialize.
  rewrite _serialize_loop_app. unfold bind. now rewrite Hpre.
Qed.

(** A key that no remaining field writes stays as it is. *)
Lemma _serialize_loop_untouched self subject k fields :
  forall v w out w',
    ~ In k (map label_of fields) ->
    _serialize_loop self subject fields v w = (Ok out, w') ->
    dict_get out k = dict_get v k.
Proof.
  induction fields as [| [[[[[name getter] to_value] call] required] pass_self]
                         fields IH]; intros v w out w' Hk Hrun.
  - cbn in Hrun. unfold ret in Hrun. now inversion Hrun.
  - cbn [map label_of In] in Hk.
    assert (Hname : name <> k) by tauto.
    assert (Hrest : ~ In k (map label_of fields)) by tauto.
    cbn [_serialize_loop] in Hrun. destruct pass_self.
    + rewrite bind_unfold in Hrun.
      destruct (call_binary getter self subject w) as [[r | e] w1];
        [| discriminate].
      rewrite (IH _ _ _ _ Hrest Hrun). now apply dict_get_set_other.
    + destruct (call_unary getter subject w) as [[r | e] w1].
      * rewrite bind_unfold in Hrun.
        match type of Hrun with
        | context [match ?m w1 with _ => _ end] =>
            destruct (m w1) as [[x | e] w2]; [| discriminate]
        end.
        rewrite (IH _ _ _ _ Hrest Hrun). now apply dict_get_set_other.
      * destruct (is_KeyError_or_AttributeError e); [| discriminate].
        destruct required; [discriminate |]. now apply (IH _ _ _ _ Hrest Hrun).
Qed.

(** C1 (amended). A non-context field whose getter returns [r]: when the
    field is required or [r] is not [None], the value is called if the call
    flag is set (a callable runs, any other value raises [TypeError]), then
    the bound converter is applied if its truth value is true, and the
    outcome is written under the output label; a bound converter whose truth
    value is false is skipped like an unbound one.  When the field is
    optional and [r] is [None], neither step runs and [None] is written.  A
    required field that retrieves [None] has the two steps applied to
    [None]. *)
Theorem retrieved_value_is_called_and_converted :
  forall self subject pre name getter to_value call required rest w0 v w r w1,
    _serialize_loop self subject pre [] w0 = (Ok v, w) ->
    call_unary getter subject w = (Ok r, w1) ->
    let fields :=
      (pre ++ (name, getter, to_value, call, required, false) :: rest)%list in
    let write (x : value) : M (pydict value) :=
      y <- match to_value with
           | Some c => if tv_truthy c then tv_call c x else ret x
           | None => ret x
           end ;;
      _serialize_loop self subject rest (dict_set v name y) in
    (required || negb (is_None r) = true -> call = false ->
       Serializer__serialize self subject fields w0 = write r w1)
    /\ (required || negb (is_None r) = true -> call = true ->
        forall body, r = VCallable body ->
        Serializer__serialize self subject fields w0 = (x <- body ;; write x) w1)
    /\ (required || negb (is_None r) = true -> call = true ->
        (forall body, r <> VCallable body) ->
        exists msg,
          Serializer__serialize self subject fields w0 =
          (Raise (Exn TypeError msg), w1))
    /\ (required = false -> r = VNone ->
        Serializer__serialize self subject fields w0 =
        _serialize_loop self subject rest (dict_set v name VNone) w1)
    /\ (required = true -> r = VNone ->
        Serializer__serialize self subject fields w0 =
        if call then (Raise (Exn TypeError "object is not callable"), w1)
        else write VNone w1)
    /\ (forall y, dict_get (dict_set v name y) name = Some y).
Proof.
  intros self subject pre name getter to_value call required rest
         w0 v w r w1 Hpre Hget fields write.
  assert (Hgate : required || negb (is_None r) = true ->
                  Serializer__serialize self subject fields w0 =
                  (x <- (if call then py_call r else ret r) ;; write x) w1).
  { intros Hg. unfold fields. rewrite (_serialize_after_prefix _ _ _ _ _ _ _ Hpre).
    cbn [_serialize_loop]. rewrite Hget, Hg. unfold write.
    now rewrite bind_assoc. }
  repeat split.
  - intros Hg ->. now rewrite (Hgate Hg).
  - intros Hg -> body ->. now rewrite (Hgate Hg).
  - intros Hg -> Hnot. rewrite (Hgate Hg).
    exists "object is not callable".
    destruct r; try reflexivity. now destruct (Hnot body).
  - intros Hreq Hr. subst. unfold fields.
    rewrite (_serialize_after_prefix _ _ _ _ _ _ _ Hpre).
    cbn [_serialize_loop]. now rewrite Hget.
  - intros Hreq Hr. subst. rewrite (Hgate eq_refl). now destruct call.
  - intros y. apply dict_get_set_same.
Qed.

(** C2. A non-context field whose getter raises [KeyError] or
    [AttributeError]: a required field lets the exception out of the
    serialization; an optional field writes nothing and the loop goes on
    with the next field, so a label no other field writes is absent from the
    output. *)
Theorem retrieval_failure_required_or_omitted :
  forall self subject pre name getter to_value call required rest w0 v w e w1,
    _serialize_loop self subject pre [] w0 = (Ok v, w) ->
    call_unary getter subject w = (Raise e, w1) ->
    exn_cls e = KeyError \/ exn_cls e = AttributeError ->
    let fields :=
      (pre ++ (name, getter, to_value, call, required, false) :: rest)%list in
    (required = true ->
       Serializer__serialize self subject fields w0 = (Raise e, w1))
    /\ (required = false ->
       Serializer__serialize self subject fields w0 =
       _serialize_loop self subject rest v w1)
    /\ (required = false ->
       forall out w2,
         ~ In name (map label_of pre) -> ~ In name (map label_of rest) ->
         Serializer__serialize self subject fields w0 = (Ok out, w2) ->
         dict_get out name = None).
Proof.
  intros self subject pre name getter to_value call required rest
         w0 v w e w1 Hpre Hget He fields.
  assert (Hcaught : is_KeyError_or_AttributeError e = true).
  { unfold is_KeyError_or_AttributeError. destruct He as [-> | ->]; reflexivity. }
  assert (Hstep : Serializer__serialize self subject fields w0 =
                  if required then (Raise e, w1)
                  else _serialize_loop self subject rest v w1).
  { unfold fields. rewrite (_serialize_after_prefix _ _ _ _ _ _ _ Hpre).
    cbn [_serialize_loop]. now rewrite Hget, Hcaught. }
  repeat split.
  - intros ->. exact Hstep.
  - intros ->. exact Hstep.
  - intros -> out w2 Hnpre Hnrest Hrun. rewrite Hstep in Hrun.
    rewrite (_serialize_loop_untouched _ _ _ _ _ _ _ _ Hnrest Hrun).
    now rewrite (_serialize_loop_untouched _ _ _ _ _ _ _ _ Hnpre Hpre).
Qed.

(** C4. Once the getter of a non-context field has returned and the value
    is to be processed, an exception raised by calling the value or by the
    converter leaves the serialization, whatever the class of the exception
    and whether the field is required or not.  The four scalar fields bind
    their built-in coercion as the converter. *)
Theorem call_and_conversion_failures_propagate :
  (forall self subject pre name getter to_value call required rest
          w0 v w r w1 e w2,
     _serialize_loop self subject pre [] w0 = (Ok v, w) ->
     call_unary getter subject w = (Ok r, w1) ->
     required || negb (is_None r) = true ->
     let fields :=
       (pre ++ (name, getter, to_value, call, required, false) :: rest)%list in
     (call = true -> py_call r w1 = (Raise e, w2) ->
        Serializer__serialize self subject fields w0 = (Raise e, w2))
     /\ (forall c x wx,
          (if call then py_call r else ret r) w1 = (Ok x, wx) ->
          to_value = Some c -> tv_truthy c = true ->
          tv_call c x wx = (Raise e, w2) ->
          Serializer__serialize self subject fields w0 = (Raise e, w2)))
  /\ (forall (builtin : value (World := World) -> M value) a name
             (cls : SerializerCls (World := World)),
        let compiled :=
          Ok (py_or (label a) name,
              UnaryGetter (default_getter cls (py_or (attr a) name)),
              Some {| tv_call := builtin; tv_is_method := false;
                      tv_base_marker := false; tv_truthy := true |},
              call a, required a, false) in
        _compile_field_to_tuple (StrField builtin a) name cls = compiled
        /\ _compile_field_to_tuple (IntField builtin a) name cls = compiled
        /\ _compile_field_to_tuple (FloatField builtin a) name cls = compiled
        /\ _compile_field_to_tuple (BoolField builtin a) name cls = compiled).
Proof.
  split.
  - intros self subject pre name getter to_value call required rest
           w0 v w r w1 e w2 Hpre Hget Hgate fields.
    assert (Hstep : Serializer__serialize self subject fields w0 =
              (x <- (if call then py_call r else ret r) ;;
               y <- match to_value with
                    | Some c => if tv_truthy c then tv_call c x else ret x
                    | None => ret x
                    end ;;
               _serialize_loop self subject rest (dict_set v name y)) w1).
    { unfold fields. rewrite (_serialize_after_prefix _ _ _ _ _ _ _ Hpre).
      cbn [_serialize_loop]. rewrite Hget, Hgate. now rewrite bind_assoc. }
    split.
    + intros -> Hcall. rewrite Hstep, bind_unfold. now rewrite Hcall.
    + intros c x wx Hcall -> Htrue Hconv.
      rewrite Hstep, bind_unfold, Hcall, bind_unfold, Htrue.
      now rewrite Hconv.
  - intros builtin a name cls compiled. repeat split.
Qed.

(** C5. A field whose serializer-context flag is set: the getter is called
    with the serializer and the subject, what it returns is written under the
    output label as it is, and what it raises leaves the serialization; the
    call flag, the converter and the required flag play no part.  A
    [MethodField] compiles to such a record, its getter being the attribute
    of the class it names (the default getter when that attribute is
    [None]). *)
Theorem context_field_writes_getter_result :
  (forall self subject pre name getter to_value call required rest w0 v w,
     _serialize_loop self subject pre [] w0 = (Ok v, w) ->
     Serializer__serialize self subject
       (pre ++ (name, getter, to_value, call, required, true) :: rest)%list w0 =
     match call_binary getter self subject w with
     | (Ok r, w1) => _serialize_loop self subject rest (dict_set v name r) w1
     | (Raise e, w1) => (Raise e, w1)
     end)
  /\ (forall f self subject,
        call_binary (BinaryGetter f) self subject = f self subject)
  /\ (forall m a name (cls : SerializerCls (World := World)) t,
        _compile_field_to_tuple (MethodField m a) name cls = Ok t ->
        exists found,
          class_getattr cls
            (match m with None => "get_" ++ name | Some m' => m' end) = Ok found
          /\ t = (py_or (label a) name,
                  match found with
                  | Some getter => getter
                  | None =>
                      UnaryGetter (default_getter cls (py_or (attr a) name))
                  end,
                  None, call a, required a, true)).
Proof.
  repeat split.
  - intros self subject pre name getter to_value call required rest
           w0 v w Hpre.
    rewrite (_serialize_after_prefix _ _ _ _ _ _ _ Hpre).
    cbn [_serialize_loop]. now rewrite bind_unfold.
  - intros m a name cls t Hc.
    unfold _compile_field_to_tuple in Hc. cbn [as_getter MethodField] in Hc.
    unfold MethodField_as_getter in Hc.
    destruct (class_getattr cls _) as [found | e] eqn:Hm; [| discriminate].
    exists found. split; [first [exact Hm | reflexivity] |]. now inversion Hc.
Qed.

(** C10. An exception of the getter of a non-context field that is neither a
    [KeyError] nor an [AttributeError] leaves the serialization, for an
    optional field as for a required one. *)
Theorem other_getter_exceptions_propagate :
  forall self subject pre name getter to_value call required rest
         w0 v w e w1,
    _serialize_loop self subject pre [] w0 = (Ok v, w) ->
    call_unary getter subject w = (Raise e, w1) ->
    exn_cls e <> KeyError -> exn_cls e <> AttributeError ->
    Serializer__serialize self subject
      (pre ++ (name, getter, to_value, call, required, false) :: rest)%list w0 =
    (Raise e, w1).
Proof.
  intros self subject pre name getter to_value call required rest
         w0 v w e w1 Hpre Hget Hk Ha.
  rewrite (_serialize_after_prefix _ _ _ _ _ _ _ Hpre).
  cbn [_serialize_loop]. rewrite Hget.
  unfold is_KeyError_or_AttributeError.
  destruct (exn_cls e); try reflexivity; contradiction.
Qed.

(** What [Serializer.to_value] returns is a dictionary or a list, not
    [None]. *)
Lemma Serializer_to_value_not_None cls self subject w r w' :
  Serializer_to_value cls self subject w = (Ok r, w') -> is_None r = false.
Proof.
  unfold Serializer_to_value. destruct (many self).
  - destruct (py_iter subject) as [os | e]; [| discriminate].
    rewrite bind_unfold.
    destruct (serialize_each _ _ _ w) as [[l | e] w1]; [| discriminate].
    unfold ret. intros H. now inversion H.
  - rewrite bind_unfold.
    destruct (Serializer__serialize _ _ _ w) as [[d | e] w1]; [| discriminate].
    unfold ret. intros H. now inversion H.
Qed.

(** C6. The first read of [data] runs [to_value] on the instance and stores
    what it returns; a read after a read that returned gives the stored
    value back and runs nothing: the world and the instance are unchanged. *)
Theorem data_is_computed_once :
  forall cls self w,
    (_data self = VNone ->
       Serializer_data cls self w =
       match Serializer_to_value cls self (instance self) w with
       | (Ok r, w1) =>
           (Ok r,
            {| self_field := self_field self; instance := instance self;
               many := many self; _data := r |}, w1)
       | (Raise e, w1) => (Raise e, self, w1)
       end)
    /\ (forall r self1 w1,
          Serializer_data cls self w = (Ok r, self1, w1) ->
          _data self1 = r
          /\ forall w2, Serializer_data cls self1 w2 = (Ok r, self1, w2)).
Proof.
  intros cls self w. split.
  - intros Hnone. unfold Serializer_data. rewrite Hnone. cbn.
    destruct (Serializer_to_value cls self (instance self) w)
      as [[r | e] w1]; reflexivity.
  - intros r self1 w1. unfold Serializer_data at 1.
    destruct (is_None (_data self)) eqn:Hd.
    + destruct (Serializer_to_value cls self (instance self) w)
        as [[r' | e] w'] eqn:Hv; [| discriminate].
      cbn. intros H. inversion H; subst. split; [reflexivity |].
      intros w2. unfold Serializer_data. cbn.
      now rewrite (Serializer_to_value_not_None _ _ _ _ _ _ Hv).
    + intros H. inversion H; subst. split; [reflexivity |].
      intros w2. unfold Serializer_data. now rewrite Hd.
Qed.

(** C9. [Serializer.__init__] with a [data] argument that is not [None]
    raises [RuntimeError], whatever the other arguments; with [data] left
    [None] it returns the instance. *)
Theorem init_rejects_data :
  forall (subject : value) many (data context : value (World := World)) kwargs,
    (data <> VNone ->
       Serializer___init__ subject many data context kwargs =
       Raise (Exn RuntimeError
                "serpy serializers do not support input validation"))
    /\ (data = VNone ->
        Serializer___init__ subject many data context kwargs =
        Ok {| self_field := kwargs; instance := subject; many := many;
              _data := VNone |}).
Proof.
  intros subject many data context kwargs. split.
  - intros Hd. unfold Serializer___init__.
    destruct data; try reflexivity. contradiction.
  - intros ->. unfold Serializer___init__, Field___init__. cbn.
    now destruct kwargs.
Qed.



Lemma bind_ret_r {A : Type} (m : M A) (w : World) :
  bind m (fun a => ret a) w = m w.
Proof.
  unfold bind, ret. destruct (m w) as [[a | e] w']; reflexivity.
Qed.



End EngineProperties.

Section CompilerProperties.

Context {World : Type}.

Implicit Types (cls : SerializerCls (World := World))
  (field : Field (World := World)).

Lemma mem_string_In (k : string) (l : list string) :
  mem_string k l = true <-> In k l.
Proof.
  unfold mem_string. rewrite existsb_exists. split.
  - intros (x & Hx & Heq). apply String.eqb_eq in Heq. now subst.
  - intros H. exists k. split; [exact H | apply String.eqb_refl].
Qed.

Lemma dict_keys_set {V : Type} (d : pydict V) (k : string) (v : V) :
  dict_keys (dict_set d k v) =
  if mem_string k (dict_keys d) then dict_keys d
  else (dict_keys d ++ [k])%list.
Proof.
  induction d as [| [k' v'] d IH]; [reflexivity |].
  cbn [dict_set dict_keys map fst mem_string existsb].
  rewrite (String.eqb_sym k k').
  destruct (String.eqb k' k); [reflexivity |].
  cbn [orb map fst]. fold (dict_keys (dict_set d k v)). rewrite IH.
  fold (dict_keys d). fold (mem_string k (dict_keys d)).
  now destruct (mem_string k (dict_keys d)).
Qed.

Lemma dict_keys_update {V : Type} (o : pydict V) :
  forall d : pydict V,
    dict_keys (dict_update d o) =
    (dict_keys d ++ first_occurrences (dict_keys d) (dict_keys o))%list.
Proof.
  induction o as [| [k v] o IH]; intros d.
  - cbn. now rewrite app_nil_r.
  - change (dict_update d ((k, v) :: o)) with (dict_update (dict_set d k v) o).
    rewrite IH, dict_keys_set. cbn [dict_keys map fst first_occurrences].
    fold (dict_keys o).
    destruct (mem_string k (dict_keys d)); [reflexivity |].
    now rewrite <- app_assoc.
Qed.

Lemma first_occurrences_app (a b : list string) :
  forall seen,
    first_occurrences seen (a ++ b) =
    (first_occurrences seen a
       ++ first_occurrences (seen ++ first_occurrences seen a) b)%list.
Proof.
  induction a as [| k a IH]; intros seen.
  - cbn. now rewrite app_nil_r.
  - cbn [app first_occurrences]. destruct (mem_string k seen).
    + apply IH.
    + rewrite IH. cbn [app]. now rewrite <- app_assoc.
Qed.

Lemma dict_keys_merge (ms : list (pydict (Field (World := World)))) :
  forall d,
    dict_keys (fold_left dict_update ms d) =
    (dict_keys d
       ++ first_occurrences (dict_keys d) (List.concat (map dict_keys ms)))%list.
Proof.
  induction ms as [| m ms IH]; intros d.
  - cbn. now rewrite app_nil_r.
  - cbn [fold_left map List.concat]. rewrite IH, dict_keys_update.
    now rewrite first_occurrences_app, app_assoc.
Qed.

Lemma first_occurrences_NoDup (l : list string) :
  NoDup l ->
  forall seen,
    first_occurrences seen l = filter (fun k => negb (mem_string k seen)) l.
Proof.
  induction 1 as [| k l Hk _ IH]; intros seen; [reflexivity |].
  cbn [first_occurrences filter]. destruct (mem_string k seen) eqn:Hs; cbn.
  - apply IH.
  - f_equal. rewrite IH. apply filter_ext_in. intros x Hx.
    unfold mem_string. rewrite existsb_app. cbn.
    destruct (String.eqb x k) eqn:E.
    + apply String.eqb_eq in E. subst. contradiction.
    + now rewrite !orb_false_r.
Qed.

Lemma dict_get_absent {V : Type} (d : pydict V) (k : string) :
  ~ In k (dict_keys d) -> dict_get d k = None.
Proof.
  induction d as [| [k' v] d IH]; [reflexivity |].
  cbn. intros H. destruct (String.eqb k' k) eqn:E.
  - apply String.eqb_eq in E. tauto.
  - apply IH. tauto.
Qed.

Lemma dict_get_update {V : Type} (o : pydict V) :
  NoDup (dict_keys o) ->
  forall (d : pydict V) k,
    dict_get (dict_update d o) k =
    match dict_get o k with
    | Some f => Some f
    | None => dict_get d k
    end.
Proof.
  induction o as [| [k' v] o IH]; intros Hnd d k; [reflexivity |].
  cbn [dict_keys map fst] in Hnd. inversion Hnd as [| ? ? Hk' Hnd']; subst.
  change (dict_update d ((k', v) :: o)) with (dict_update (dict_set d k' v) o).
  rewrite (IH Hnd'). cbn [dict_get]. destruct (String.eqb k' k) eqn:E.
  - apply String.eqb_eq in E. subst k'.
    rewrite (dict_get_absent o k Hk'). apply dict_get_set_same.
  - destruct (dict_get o k); [reflexivity |].
    apply dict_get_set_other. intros ->. now rewrite String.eqb_refl in E.
Qed.

(** [_get_fields] merges the merge sequence and then the direct fields. *)
Lemma SerializerMeta__get_fields_merge
    (direct_fields : pydict (Field (World := World))) cls :
  SerializerMeta__get_fields direct_fields cls =
  dict_update (inherited_fields cls) direct_fields.
Proof.
  unfold SerializerMeta__get_fields, inherited_fields, merge_sequence.
  f_equal. generalize (@nil (string * @Field World)).
  induction (rev (__mro__ cls)) as [| c l IH]; intros acc; [reflexivity |].
  cbn [fold_left filter]. destruct (issubclass_SerializerBase c); cbn; apply IH.
Qed.



(** C7 (amended). When [as_getter] returns [None], the getter of the record
    is the default getter of the class over the [attr] of the field, or over
    the name the field is declared under when [attr] is [None] or the empty
    string; the label of the record is the [label] of the field, or that
    name when [label] is [None] or the empty string.  The default getter is
    [attrgetter] for [Serializer] and [itemgetter] for [DictSerializer]. *)
Theorem default_getter_and_label :
  forall field name cls,
    as_getter field name cls = Ok None ->
    (exists t,
       _compile_field_to_tuple field name cls = Ok t
       /\ getter_of t =
          UnaryGetter
            (default_getter cls
               match attr field with
               | None => name
               | Some a => if String.eqb a "" then name else a
               end)
       /\ label_of t =
          match label field with
          | None => name
          | Some l => if String.eqb l "" then name else l
          end)
    /\ Serializer_default_getter (World := World) = attrgetter
    /\ DictSerializer_default_getter (World := World) = itemgetter.
Proof.
  intros field name cls Hg. repeat split.
  unfold _compile_field_to_tuple. rewrite Hg. eexists. split; [reflexivity |].
  cbn [getter_of label_of]. split.
  - destruct (attr field) as [[| c a] |]; reflexivity.
  - destruct (label field) as [[| c l] |]; reflexivity.
Qed.

End CompilerProperties.

(** ** Further properties of the engine *)

Section MoreEngineProperties.

Context {World : Type}.

Notation "x <- m ;; k" := (bind m (fun x => k))
  (at level 61, m at next level, right associativity).

Implicit Types (self : SerializerInstance (World := World))
  (subject : value (World := World)) (w : World)
  (cls : SerializerClass (World := World)).

Lemma In_dict_keys_set {V : Type} (d : pydict V) (k n : string) (x : V) :
  In k (dict_keys (dict_set d n x)) <-> k = n \/ In k (dict_keys d).
Proof.
  rewrite dict_keys_set. destruct (mem_string n (dict_keys d)) eqn:E.
  - apply mem_string_In in E. split; [tauto |]. intros [-> | H]; assumption.
  - rewrite in_app_iff. cbn. split; [intros [H | [H | []]] | intros [H | H]];
      auto.
Qed.

Lemma _serialize_loop_keys self subject fields :
  forall v w out w',
    _serialize_loop self subject fields v w = (Ok out, w') ->
    forall k, In k (dict_keys out) ->
         In k (dict_keys v) \/ In k (map label_of fields).
Proof.
  induction fields as [| [[[[[name getter] to_value] call] required] pass_self]
                         fields IH]; intros v w out w' Hrun k Hk.
  - cbn in Hrun. unfold ret in Hrun. inversion Hrun; subst. now left.
  - cbn [map label_of In]. cbn [_serialize_loop] in Hrun.
    assert (Hset : forall x w1,
               _serialize_loop self subject fields (dict_set v name x) w1 =
               (Ok out, w') ->
               In k (dict_keys v) \/ name = k \/ In k (map label_of fields)).
    { intros x w1 H. destruct (IH _ _ _ _ H k Hk) as [Hv | Hf]; [| tauto].
      apply In_dict_keys_set in Hv. destruct Hv as [-> | Hv]; tauto. }
    destruct pass_self.
    + rewrite bind_unfold in Hrun.
      destruct (call_binary getter self subject w) as [[r | e] w1];
        [| discriminate].
      exact (Hset _ _ Hrun).
    + destruct (call_unary getter subject w) as [[r | e] w1].
      * rewrite bind_unfold in Hrun.
        match type of Hrun with
        | context [match ?m w1 with _ => _ end] =>
            destruct (m w1) as [[x | e] w2]; [| discriminate]
        end.
        exact (Hset _ _ Hrun).
      * destruct (is_KeyError_or_AttributeError e); [| discriminate].
        destruct required; [discriminate |].
        destruct (IH _ _ _ _ Hrun k Hk); tauto.
Qed.

(** X1. Every key of the dictionary [_serialize] returns is the output label
    of a record of the plan. *)
Theorem serialized_keys_are_labels :
  forall self subject fields w out w',
    Serializer__serialize self subject fields w = (Ok out, w') ->
    forall k, In k (dict_keys out) -> In k (map label_of fields).
Proof.
  intros self subject fields w out w' Hrun k Hk.
  destruct (_serialize_loop_keys _ _ _ _ _ _ _ Hrun k Hk) as [[] | H].
  exact H.
Qed.

Lemma _serialize_loop_all_written self subject fields :
  forallb always_writes fields = true ->
  forall v w out w',
    _serialize_loop self subject fields v w = (Ok out, w') ->
    dict_keys out =
    (dict_keys v ++ first_occurrences (dict_keys v) (map label_of fields))%list.
Proof.
  induction fields as [| [[[[[name getter] to_value] call] required] pass_self]
                         fields IH]; intros Hall v w out w' Hrun.
  - cbn in Hrun. unfold ret in Hrun. inversion Hrun; subst.
    cbn. now rewrite app_nil_r.
  - cbn [forallb always_writes] in Hall. apply andb_prop in Hall.
    destruct Hall as [Hw Hall].
    assert (Hset : forall x w1,
               _serialize_loop self subject fields (dict_set v name x) w1 =
               (Ok out, w') ->
               dict_keys out =
               (dict_keys v
                  ++ first_occurrences (dict_keys v)
                       (map label_of
                          ((name, getter, to_value, call, required, pass_self)
                             :: fields)))%list).
    { intros x w1 H. rewrite (IH Hall _ _ _ _ H), dict_keys_set.
      cbn [map label_of first_occurrences].
      destruct (mem_string name (dict_keys v)); [reflexivity |].
      now rewrite <- app_assoc. }
    cbn [_serialize_loop] in Hrun. destruct pass_self.
    + rewrite bind_unfold in Hrun.
      destruct (call_binary getter self subject w) as [[r | e] w1];
        [| discriminate].
      exact (Hset _ _ Hrun).
    + destruct (call_unary getter subject w) as [[r | e] w1].
      * rewrite bind_unfold in Hrun.
        match type of Hrun with
        | context [match ?m w1 with _ => _ end] =>
            destruct (m w1) as [[x | e] w2]; [| discriminate]
        end.
        exact (Hset _ _ Hrun).
      * rewrite orb_false_r in Hw. subst required.
        destruct (is_KeyError_or_AttributeError e); discriminate.
Qed.

(** X2. When every record of the plan is required or takes the serializer,
    a serialization that returns has exactly the labels of the plan as its
    keys, each once, in the order of their first occurrence in the plan. *)
Theorem required_plan_writes_every_label :
  forall self subject fields w out w',
    forallb always_writes fields = true ->
    Serializer__serialize self subject fields w = (Ok out, w') ->
    dict_keys out = first_occurrences [] (map label_of fields).
Proof.
  intros self subject fields w out w' Hall Hrun.
  exact (_serialize_loop_all_written _ _ _ Hall _ _ _ _ Hrun).
Qed.

Lemma serialize_each_app self fields os1 :
  forall os2 w,
    serialize_each self fields (os1 ++ os2) w =
    (l1 <- serialize_each self fields os1 ;;
     l2 <- serialize_each self fields os2 ;;
     ret (l1 ++ l2)%list) w.
Proof.
  induction os1 as [| o os1 IH]; intros os2 w.
  - cbn [app serialize_each]. rewrite bind_ret_l.
    now rewrite bind_ret_r.
  - cbn [app serialize_each]. unfold bind, ret.
    destruct (Serializer__serialize self o fields w) as [[d | e] w1];
      [| reflexivity].
    rewrite IH. unfold bind, ret.
    destruct (serialize_each self fields os1 w1) as [[l1 | e] w2];
      [| reflexivity].
    destruct (serialize_each self fields os2 w2) as [[l2 | e] w3];
      reflexivity.
Qed.

Lemma serialize_each_elements self fields os :
  forall w l w',
    serialize_each self fields os w = (Ok l, w') ->
    List.length l = List.length os
    /\ forall i o,
         nth_error os i = Some o ->
         exists d wi wi',
           nth_error l i = Some (VDict d)
           /\ Serializer__serialize self o fields wi = (Ok d, wi').
Proof.
  induction os as [| o os IH]; intros w l w' Hrun.
  - cbn in Hrun. unfold ret in Hrun. inversion Hrun; subst.
    split; [reflexivity |]. intros [| i] o H; discriminate.
  - cbn [serialize_each] in Hrun. rewrite bind_unfold in Hrun.
    destruct (Serializer__serialize self o fields w) as [[d | e] w1] eqn:Ho;
      [| discriminate].
    rewrite bind_unfold in Hrun.
    destruct (serialize_each self fields os w1) as [[ds | e] w2] eqn:Hos;
      [| discriminate].
    unfold ret in Hrun. inversion Hrun; subst.
    destruct (IH _ _ _ Hos) as [Hlen Hnth]. split; [cbn; now rewrite Hlen |].
    intros [| i] o' H; cbn in H.
    + inversion H; subst. exists d, w, w1. now split.
    + exact (Hnth i o' H).
Qed.

(** X3. With [many] set, [to_value] over a list of N subjects returns a list
    of N dictionaries, the i-th being a serialization of the i-th subject
    with the plan of the class. *)
Theorem many_serializes_each_subject_in_order :
  forall cls self subject os w r w',
    many self = true ->
    py_iter subject = Ok os ->
    Serializer_to_value cls self subject w = (Ok r, w') ->
    exists l,
      r = VList l
      /\ List.length l = List.length os
      /\ forall i o,
           nth_error os i = Some o ->
           exists d wi wi',
             nth_error l i = Some (VDict d)
             /\ Serializer__serialize self o (_compiled_fields cls) wi =
                (Ok d, wi').
Proof.
  intros cls self subject os w r w' Hmany Hiter Hrun.
  unfold Serializer_to_value in Hrun. rewrite Hmany, Hiter in Hrun.
  rewrite bind_unfold in Hrun.
  destruct (serialize_each self (_compiled_fields cls) os w)
    as [[l | e] w1] eqn:Hl; [| discriminate].
  unfold ret in Hrun. inversion Hrun; subst. exists l.
  split; [reflexivity |]. exact (serialize_each_elements _ _ _ _ _ _ Hl).
Qed.

(** X4. With [many] set, the first subject whose serialization raises ends
    [to_value] with that exception: the subjects after it are not
    serialized and no partial list is returned. *)
Theorem many_stops_at_first_failure :
  forall cls self subject os1 o os2 w l1 w1 e w2,
    many self = true ->
    py_iter subject = Ok (os1 ++ o :: os2)%list ->
    serialize_each self (_compiled_fields cls) os1 w = (Ok l1, w1) ->
    Serializer__serialize self o (_compiled_fields cls) w1 = (Raise e, w2) ->
    Serializer_to_value cls self subject w = (Raise e, w2).
Proof.
  intros cls self subject os1 o os2 w l1 w1 e w2 Hmany Hiter Hos1 Ho.
  unfold Serializer_to_value. rewrite Hmany, Hiter.
  rewrite bind_unfold, serialize_each_app, bind_unfold, Hos1.
  cbn [serialize_each]. rewrite !bind_unfold. now rewrite Ho.
Qed.

(** X5. A read of [data] that raises leaves the instance as it was, with
    nothing stored: the next read runs [to_value] again. *)
Theorem failed_read_is_not_cached :
  forall cls self w e self1 w1,
    Serializer_data cls self w = (Raise e, self1, w1) ->
    self1 = self
    /\ _data self = VNone
    /\ Serializer_to_value cls self (instance self) w = (Raise e, w1)
    /\ forall w2,
         Serializer_data cls self1 w2 =
         match Serializer_to_value cls self (instance self) w2 with
         | (Ok r, w3) =>
             (Ok r,
              {| self_field := self_field self; instance := instance self;
                 many := many self; _data := r |}, w3)
         | (Raise e', w3) => (Raise e', self, w3)
         end.
Proof.
  intros cls self w e self1 w1 Hrun. unfold Serializer_data in Hrun.
  destruct (is_None (_data self)) eqn:Hd; [| discriminate].
  assert (Hnone : _data self = VNone) by (destruct (_data self); auto; discriminate).
  destruct (Serializer_to_value cls self (instance self) w)
    as [[r | e'] w'] eqn:Hv; [discriminate |].
  injection Hrun as He Hs Hw. subst e' self1 w'.
  repeat split; try assumption.
  intros w2. unfold Serializer_data. rewrite Hd.
  destruct (Serializer_to_value cls self (instance self) w2)
    as [[r | e'] w3]; reflexivity.
Qed.

Lemma dict_set_absent {V : Type} (d : pydict V) (k : string) (x : V) :
  ~ In k (dict_keys d) -> dict_set d k x = (d ++ [(k, x)])%list.
Proof.
  induction d as [| [k' v'] d IH]; intros H; [reflexivity |].
  cbn in *. destruct (String.eqb k' k) eqn:E.
  - apply String.eqb_eq in E. tauto.
  - rewrite IH; tauto.
Qed.

Lemma itemgetter_dict (d : pydict (value (World := World))) name w :
  call_unary (UnaryGetter (itemgetter name)) (VDict d) w =
  match dict_get d name with
  | Some x => (Ok x, w)
  | None => (Raise (Exn KeyError name), w)
  end.
Proof.
  cbn. destruct (dict_get d name); reflexivity.
Qed.

Lemma item_records_run self (d : pydict value) required names :
  NoDup names ->
  forall v w,
    (forall n, In n names -> ~ In n (dict_keys v)) ->
    _serialize_loop self (VDict d) (map (item_record required) names) v w =
    match (if required then first_missing d names else None) with
    | Some n => (Raise (Exn KeyError n), w)
    | None => (Ok (v ++ project d names)%list, w)
    end.
Proof.
  induction 1 as [| n names Hn Hnd IH]; intros v w Hfresh.
  - cbn. unfold ret. rewrite app_nil_r. now destruct required.
  - cbn [map item_record _serialize_loop]. rewrite itemgetter_dict.
    cbn [first_missing find project flat_map].
    destruct (dict_get d n) as [x |] eqn:Hx.
    + assert (Hrun : forall b : bool,
                (result <- (if b then
                              result <- ret x ;; ret result
                            else ret x) ;;
                 _serialize_loop self (VDict d)
                   (map (item_record required) names) (dict_set v n result)) w
                = _serialize_loop self (VDict d)
                    (map (item_record required) names) (v ++ [(n, x)])%list w).
      { intros b.
        pose proof (dict_set_absent v n x (Hfresh n (or_introl eq_refl))) as Hs.
        destruct b; unfold bind, ret; now rewrite Hs. }
      rewrite Hrun, IH.
      * fold (first_missing d names). fold (project d names).
        destruct (if required then first_missing d names else None);
          [reflexivity |].
        now rewrite <- app_assoc.
      * intros k Hk. unfold dict_keys. rewrite map_app, in_app_iff. cbn.
        intros [Hv | [<- | []]]; [| contradiction].
        exact (Hfresh k (or_intror Hk) Hv).
    + cbn [is_KeyError_or_AttributeError exn_cls]. destruct required.
      * reflexivity.
      * apply IH. intros k Hk. apply Hfresh. now right.
Qed.

Lemma item_fields_compile (cls : SerializerCls (World := World)) required
    names :
  default_getter cls = DictSerializer_default_getter ->
  SerializerMeta__compile_fields
    (map (fun n => (n, mkField (Field___init__ None false None required)))
         names) cls =
  Ok (map (item_record required) names).
Proof.
  intros Hg. induction names as [| n names IH]; [reflexivity |].
  cbn [map SerializerMeta__compile_fields]. rewrite IH.
  unfold _compile_field_to_tuple. cbn. now rewrite Hg.
Qed.

(** X6. A class that reads items and declares the plain optional fields
    [names]: the serialization of a dictionary never raises and has no
    effect, and it returns the items of the dictionary under the declared
    names, in declaration order; a name the dictionary lacks is left out,
    an item that is [None] is kept. *)
Theorem optional_item_fields_project_the_dictionary :
  forall (cls : SerializerCls (World := World)) names self
         (d : pydict value) w,
    default_getter cls = DictSerializer_default_getter ->
    NoDup names ->
    exists plan,
      SerializerMeta__compile_fields
        (map (fun n => (n, mkField (Field___init__ None false None false)))
             names) cls = Ok plan
      /\ Serializer__serialize self (VDict d) plan w =
         (Ok (project d names), w).
Proof.
  intros cls names self d w Hg Hnd.
  exists (map (item_record false) names).
  split; [now apply item_fields_compile |].
  unfold Serializer__serialize.
  rewrite (item_records_run self d false names Hnd [] w); [reflexivity |].
  intros n _ [].
Qed.

(** X7. A class that reads items and declares the plain required fields
    [names]: the serialization of a dictionary raises [KeyError] for the
    first declared name the dictionary lacks, and otherwise returns the
    items under the declared names, in declaration order. *)
Theorem required_item_fields_need_every_key :
  forall (cls : SerializerCls (World := World)) names self
         (d : pydict value) w,
    default_getter cls = DictSerializer_default_getter ->
    NoDup names ->
    exists plan,
      SerializerMeta__compile_fields
        (map (fun n => (n, mkField (Field___init__ None false None true)))
             names) cls = Ok plan
      /\ Serializer__serialize self (VDict d) plan w =
         match first_missing d names with
         | Some n => (Raise (Exn KeyError n), w)
         | None => (Ok (project d names), w)
         end.
Proof.
  intros cls names self d w Hg Hnd.
  exists (map (item_record true) names).
  split; [now apply item_fields_compile |].
  unfold Serializer__serialize.
  rewrite (item_records_run self d true names Hnd [] w); [reflexivity |].
  intros n _ [].
Qed.

Lemma dict_get_app_absent {V : Type} (d0 d : pydict V) (k : string) :
  ~ In k (dict_keys d0) -> dict_get (d0 ++ d)%list k = dict_get d k.
Proof.
  induction d0 as [| [k' v'] d0 IH]; intros H; [reflexivity |].
  cbn in *. destruct (String.eqb k' k) eqn:E.
  - apply String.eqb_eq in E. tauto.
  - apply IH. tauto.
Qed.

Lemma project_own_keys (d : pydict (value (World := World))) :
  forall d0,
    NoDup (dict_keys (d0 ++ d)%list) ->
    project (d0 ++ d)%list (dict_keys d) = d
    /\ first_missing (d0 ++ d)%list (dict_keys d) = None.
Proof.
  induction d as [| [k v] d IH]; intros d0 Hnd; [now split |].
  assert (Hk : ~ In k (dict_keys d0)).
  { unfold dict_keys in *. rewrite map_app in Hnd. cbn in Hnd.
    apply NoDup_remove_2 in Hnd. rewrite in_app_iff in Hnd. tauto. }
  cbn [dict_keys map fst project flat_map first_missing find].
  rewrite (dict_get_app_absent d0 _ k Hk). cbn [dict_get].
  rewrite String.eqb_refl.
  change (d0 ++ (k, v) :: d)%list with (d0 ++ [(k, v)] ++ d)%list in *.
  rewrite app_assoc in *. destruct (IH _ Hnd) as [Hp Hm].
  fold (dict_keys d). split.
  - cbn [app]. f_equal. exact Hp.
  - exact Hm.
Qed.

(** X8. A class that reads items and declares one plain required field per
    key of a dictionary, in the order of the keys, serializes that
    dictionary to itself. *)
Theorem fields_for_every_key_give_the_dictionary_back :
  forall (cls : SerializerCls (World := World)) self (d : pydict value) w,
    default_getter cls = DictSerializer_default_getter ->
    NoDup (dict_keys d) ->
    exists plan,
      SerializerMeta__compile_fields
        (map (fun n => (n, mkField (Field___init__ None false None true)))
             (dict_keys d)) cls = Ok plan
      /\ Serializer__serialize self (VDict d) plan w = (Ok d, w).
Proof.
  intros cls self d w Hg Hnd.
  exists (map (item_record true) (dict_keys d)).
  split; [now apply item_fields_compile |].
  unfold Serializer__serialize.
  rewrite (item_records_run self d true (dict_keys d) Hnd [] w).
  - destruct (project_own_keys d [] Hnd) as [Hp Hm]. cbn [app] in Hp, Hm.
    now rewrite Hm, Hp.
  - intros n _ [].
Qed.

(** X9. A serializer instance declared as a field of another class: its plan
    record carries the [to_value] of the nested instance as converter, so a
    retrieved value that is processed is serialized with the plan of the
    nested class and the result is written under the label; an optional
    nested field that retrieves [None] writes [None] and the nested plan
    does not run. *)
Theorem nested_serializer_field_runs_the_nested_plan :
  forall inner inner_self name (cls : SerializerCls (World := World))
         self subject pre rest w0 v w r w1,
    let nested := self_field inner_self in
    let getter :=
      UnaryGetter (default_getter cls (py_or (attr nested) name)) in
    let t := (py_or (label nested) name, getter,
              Some {| tv_call := Serializer_to_value inner inner_self;
                      tv_is_method := true; tv_base_marker := false;
                      tv_truthy := true |},
              call nested, required nested, false) in
    _serialize_loop self subject pre [] w0 = (Ok v, w) ->
    call_unary getter subject w = (Ok r, w1) ->
    _compile_field_to_tuple (Serializer_as_Field inner inner_self) name cls
      = Ok t
    /\ (required nested || negb (is_None r) = true ->
        Serializer__serialize self subject (pre ++ t :: rest)%list w0 =
        (x <- (if call nested then py_call r else ret r) ;;
         y <- Serializer_to_value inner inner_self x ;;
         _serialize_loop self subject rest
           (dict_set v (py_or (label nested) name) y)) w1)
    /\ (required nested = false -> r = VNone ->
        Serializer__serialize self subject (pre ++ t :: rest)%list w0 =
        _serialize_loop self subject rest
          (dict_set v (py_or (label nested) name) VNone) w1).
Proof.
  intros inner inner_self name cls self subject pre rest w0 v w r w1
         nested getter t Hpre Hget.
  split; [reflexivity | split].
  - intros Hgate. rewrite (_serialize_after_prefix _ _ _ _ _ _ _ Hpre).
    unfold t. cbn [_serialize_loop tv_truthy tv_call].
    rewrite Hget, Hgate. now rewrite bind_assoc.
  - intros Hreq ->. rewrite (_serialize_after_prefix _ _ _ _ _ _ _ Hpre).
    unfold t. cbn [_serialize_loop]. now rewrite Hget, Hreq.
Qed.

(** X15. Two records under one label: when the last record of a plan takes
    the serializer and its getter returns, the output holds that value under
    the label; every other key holds what the records before had written,
    and a label already written keeps its place among the keys. *)
Theorem last_record_overwrites_its_label :
  forall self subject pre name getter to_value call required w0 v w r w1,
    _serialize_loop self subject pre [] w0 = (Ok v, w) ->
    call_binary getter self subject w = (Ok r, w1) ->
    exists out,
      Serializer__serialize self subject
        (pre ++ [(name, getter, to_value, call, required, true)])%list w0 =
      (Ok out, w1)
      /\ dict_get out name = Some r
      /\ (forall k, k <> name -> dict_get out k = dict_get v k)
      /\ (In name (dict_keys v) -> dict_keys out = dict_keys v).
Proof.
  intros self subject pre name getter to_value call required w0 v w r w1
         Hpre Hget.
  exists (dict_set v name r).
  rewrite (_serialize_after_prefix _ _ _ _ _ _ _ Hpre).
  cbn [_serialize_loop]. rewrite bind_unfold, Hget. repeat split.
  - apply dict_get_set_same.
  - intros k Hk. apply dict_get_set_other. congruence.
  - intros Hin. rewrite dict_keys_set.
    now rewrite (proj2 (mem_string_In name (dict_keys v)) Hin).
Qed.

End MoreEngineProperties.

(** ** Further properties of the metaclass *)

Section MoreCompilerProperties.

Context {World : Type}.

Implicit Types (cls base : SerializerClass (World := World))
  (attrs : pydict (class_attr (World := World)))
  (field : Field (World := World)).

Lemma body_field_items_keys attrs k :
  In k (dict_keys (body_field_items attrs)) -> In k (dict_keys attrs).
Proof.
  induction attrs as [| [k' a] attrs IH]; [auto |].
  cbn [body_field_items flat_map snd fst dict_keys map].
  unfold dict_keys in *. rewrite map_app, in_app_iff.
  intros [H | H]; [| right; now apply IH].
  destruct a; cbn in H |- *; tauto.
Qed.

Lemma body_field_items_NoDup attrs :
  NoDup (dict_keys attrs) -> NoDup (dict_keys (body_field_items attrs)).
Proof.
  induction attrs as [| [k a] attrs IH]; intros Hnd; [constructor |].
  cbn [dict_keys map fst] in Hnd. inversion Hnd as [| ? ? Hk Hnd']; subst.
  cbn [body_field_items flat_map snd fst].
  destruct a; cbn [app]; try (now apply IH).
  cbn [dict_keys map fst]. constructor; [| now apply IH].
  intros H. apply Hk. now apply body_field_items_keys.
Qed.

Lemma class_body_fields_items attrs :
  NoDup (dict_keys attrs) -> class_body_fields attrs = body_field_items attrs.
Proof.
  unfold class_body_fields. intros Hnd.
  enough (H : forall acc,
             (forall k, In k (dict_keys attrs) -> ~ In k (dict_keys acc)) ->
             fold_left
               (fun direct_fields kv =>
                  match snd kv with
                  | AField field => dict_set direct_fields (fst kv) field
                  | _ => direct_fields
                  end) attrs acc =
             (acc ++ body_field_items attrs)%list).
  { apply (H []). intros k _ []. }
  induction attrs as [| [k a] attrs IH]; intros acc Hfresh.
  - cbn. now rewrite app_nil_r.
  - cbn [dict_keys map fst] in Hnd. inversion Hnd as [| ? ? Hk Hnd']; subst.
    cbn [fold_left snd fst body_field_items flat_map].
    assert (Hrest : forall k0, In k0 (dict_keys attrs) ->
                          ~ In k0 (dict_keys acc)).
    { intros k0 H0. apply Hfresh. now right. }
    destruct a; cbn [app]; try (now apply IH).
    rewrite dict_set_absent by (apply Hfresh; now left).
    rewrite (IH Hnd').
    + now rewrite <- app_assoc.
    + intros k0 H0. unfold dict_keys. rewrite map_app, in_app_iff. cbn.
      intros [H | [<- | []]]; [exact (Hrest k0 H0 H) | exact (Hk H0)].
Qed.

Lemma dict_del_filter {V : Type} (d : pydict V) (k : string) :
  NoDup (dict_keys d) ->
  dict_del d k = filter (fun kv => negb (String.eqb (fst kv) k)) d.
Proof.
  induction d as [| [k' v] d IH]; intros Hnd; [reflexivity |].
  cbn [dict_keys map fst] in Hnd. inversion Hnd as [| ? ? Hk Hnd']; subst.
  cbn [dict_del filter fst]. destruct (String.eqb k' k) eqn:E; cbn [negb].
  - apply String.eqb_eq in E. subst k'. symmetry.
    rewrite forallb_filter_id; [reflexivity |].
    apply forallb_forall. intros [k0 v0] H0. cbn.
    destruct (String.eqb k0 k) eqn:E0; [| reflexivity].
    apply String.eqb_eq in E0. subst k0. exfalso. apply Hk.
    apply (in_map fst) in H0. exact H0.
  - now rewrite IH.
Qed.

Lemma filter_keys_NoDup {V : Type} (f : string * V -> bool) (d : pydict V) :
  NoDup (dict_keys d) -> NoDup (dict_keys (filter f d)).
Proof.
  induction d as [| kv d IH]; intros Hnd; [constructor |].
  cbn [dict_keys map] in Hnd. inversion Hnd as [| ? ? Hk Hnd']; subst.
  cbn [filter]. destruct (f kv); [| now apply IH].
  cbn [dict_keys map]. constructor; [| now apply IH].
  intros H. apply Hk. unfold dict_keys in H. apply in_map_iff in H.
  destruct H as (x & Hx & Hin). apply filter_In in Hin.
  apply in_map_iff. exists x. tauto.
Qed.

Lemma filter_twice {A : Type} (f g : A -> bool) (l : list A) :
  filter f (filter g l) = filter (fun x => g x && f x) l.
Proof.
  induction l as [| x l IH]; [reflexivity |].
  cbn [filter]. destruct (g x); cbn [filter andb]; [| exact IH].
  destruct (f x); now rewrite IH.
Qed.

Lemma fold_dict_del_filter {V : Type} (ks : list string) :
  forall d : pydict V,
    NoDup (dict_keys d) ->
    fold_left (fun acc k => dict_del acc k) ks d =
    filter (fun kv => negb (mem_string (fst kv) ks)) d.
Proof.
  induction ks as [| k ks IH]; intros d Hnd.
  - cbn. symmetry. rewrite forallb_filter_id; [reflexivity |].
    apply forallb_forall. now intros.
  - cbn [fold_left]. rewrite (dict_del_filter d k Hnd).
    rewrite IH by now apply filter_keys_NoDup.
    rewrite filter_twice. apply filter_ext. intros [k0 v0].
    cbn [fst mem_string existsb]. fold (mem_string k0 ks).
    destruct (String.eqb k0 k), (mem_string k0 ks); reflexivity.
Qed.

Lemma body_field_items_keys_cons k (a : class_attr (World := World)) attrs :
  dict_keys (body_field_items ((k, a) :: attrs)) =
  ((if is_AField a then [k] else []) ++ dict_keys (body_field_items attrs))%list.
Proof.
  unfold dict_keys. cbn [body_field_items flat_map snd fst].
  rewrite map_app. now destruct a.
Qed.

Lemma In_body_field_items attrs :
  NoDup (dict_keys attrs) ->
  forall k a, In (k, a) attrs ->
    (In k (dict_keys (body_field_items attrs)) <-> is_AField a = true).
Proof.
  induction attrs as [| [k' a'] attrs IH]; intros Hnd k a Hin; [destruct Hin |].
  cbn [dict_keys map fst] in Hnd. inversion Hnd as [| ? ? Hk Hnd']; subst.
  rewrite body_field_items_keys_cons, in_app_iff.
  destruct Hin as [Heq | Hin].
  - inversion Heq; subst k' a'. split.
    + intros [H | H].
      * destruct (is_AField a); [reflexivity | destruct H].
      * apply body_field_items_keys in H. contradiction.
    + intros ->. left. now left.
  - assert (Hne : k' <> k).
    { intros ->. apply Hk. now apply (in_map fst) in Hin. }
    rewrite <- (IH Hnd' k a Hin). split; [| tauto].
    intros [H | H]; [| exact H].
    destruct (is_AField a'); [| destruct H].
    destruct H as [H | []]. contradiction.
Qed.

Lemma mem_body_field_items attrs :
  NoDup (dict_keys attrs) ->
  forall kv, In kv attrs ->
    mem_string (fst kv) (dict_keys (body_field_items attrs)) =
    is_AField (snd kv).
Proof.
  intros Hnd [k a] Hin. cbn [fst snd].
  pose proof (In_body_field_items attrs Hnd k a Hin) as Hiff.
  rewrite <- mem_string_In in Hiff.
  destruct (mem_string k _), (is_AField a); try reflexivity.
  - symmetry. now apply Hiff.
  - now apply Hiff.
Qed.

Lemma class_body_without_fields_filter attrs :
  NoDup (dict_keys attrs) ->
  class_body_without_fields attrs =
  filter (fun kv => negb (is_AField (snd kv))) attrs.
Proof.
  intros Hnd. unfold class_body_without_fields.
  rewrite (fold_dict_del_filter _ attrs Hnd).
  apply filter_ext_in. intros kv Hin.
  now rewrite (class_body_fields_items attrs Hnd),
              (mem_body_field_items attrs Hnd kv Hin).
Qed.

(** What a class returned by [SerializerMeta.__new__] is made of. *)
Lemma SerializerMeta___new___inv
    (type_new : pydict class_attr -> result (SerializerCls (World := World)))
    attrs cls :
  SerializerMeta___new__ type_new attrs = Ok cls ->
  type_new (class_body_without_fields attrs) = Ok (real_cls cls)
  /\ _field_map cls =
     SerializerMeta__get_fields (class_body_fields attrs) (real_cls cls)
  /\ SerializerMeta__compile_fields (_field_map cls) (real_cls cls) =
     Ok (_compiled_fields cls).
Proof.
  unfold SerializerMeta___new__.
  fold (class_body_fields attrs). fold (class_body_without_fields attrs).
  destruct (type_new (class_body_without_fields attrs)) as [real | e];
    [| discriminate].
  destruct (SerializerMeta__compile_fields
              (SerializerMeta__get_fields (class_body_fields attrs) real) real)
    as [plan | e] eqn:Hplan; [| discriminate].
  intros H. inversion H; subst cls. cbn. repeat split. exact Hplan.
Qed.

(** X10. [SerializerMeta.__new__] takes the fields out of the class body:
    [type.__new__] receives the body without its [Field] attributes, the
    other attributes being left in their order, and the field map of the
    class is computed from exactly the [Field] attributes, in declaration
    order. *)
Theorem new_takes_the_fields_out_of_the_body :
  forall type___new__ attrs cls,
    NoDup (dict_keys attrs) ->
    SerializerMeta___new__ type___new__ attrs = Ok cls ->
    type___new__ (filter (fun kv => negb (is_AField (snd kv))) attrs) =
      Ok (real_cls cls)
    /\ _field_map cls =
       SerializerMeta__get_fields (body_field_items attrs) (real_cls cls).
Proof.
  intros type_new attrs cls Hnd Hnew.
  destruct (SerializerMeta___new___inv _ _ _ Hnew) as (Hreal & Hfm & _).
  rewrite (class_body_without_fields_filter attrs Hnd) in Hreal.
  rewrite (class_body_fields_items attrs Hnd) in Hfm. now split.
Qed.

Lemma first_occurrences_distinct (l : list string) :
  forall seen, NoDup seen -> NoDup (seen ++ first_occurrences seen l).
Proof.
  induction l as [| k l IH]; intros seen Hnd.
  - cbn. now rewrite app_nil_r.
  - cbn [first_occurrences]. destruct (mem_string k seen) eqn:E.
    + now apply IH.
    + change (k :: first_occurrences (seen ++ [k]) l)
        with ([k] ++ first_occurrences (seen ++ [k]) l)%list.
      rewrite app_assoc. apply IH.
      apply NoDup_app; [exact Hnd | repeat constructor; intros [] |].
      intros x Hx [<- | []].
      apply mem_string_In in Hx. congruence.
Qed.

Lemma dict_update_NoDup {V : Type} (d o : pydict V) :
  NoDup (dict_keys d) -> NoDup (dict_keys (dict_update d o)).
Proof.
  intros Hnd. rewrite dict_keys_update. now apply first_occurrences_distinct.
Qed.

Lemma SerializerMeta__get_fields_NoDup
    (direct_fields : pydict (Field (World := World)))
    (c : SerializerCls (World := World)) :
  NoDup (dict_keys (SerializerMeta__get_fields direct_fields c)).
Proof.
  rewrite SerializerMeta__get_fields_merge. apply dict_update_NoDup.
  unfold inherited_fields. rewrite dict_keys_merge.
  apply first_occurrences_distinct. constructor.
Qed.

Lemma SerializerMeta__compile_fields_labels
    (c : SerializerCls (World := World)) (field_map : pydict Field) :
  forall plan,
    SerializerMeta__compile_fields field_map c = Ok plan ->
    List.length plan = List.length field_map
    /\ map label_of plan =
       map (fun kv : string * Field => py_or (label (snd kv)) (fst kv))
           field_map.
Proof.
  induction field_map as [| [name field] fm IH]; intros plan H; cbn in H.
  - inversion H. now split.
  - destruct (_compile_field_to_tuple field name c) as [t | e] eqn:Ht;
      [| discriminate].
    destruct (SerializerMeta__compile_fields fm c) as [ts | e];
      [| discriminate].
    inversion H; subst. destruct (IH ts eq_refl) as [Hlen Hlab].
    cbn [List.length map fst snd]. split; [now rewrite Hlen |].
    rewrite Hlab. f_equal. unfold _compile_field_to_tuple in Ht.
    destruct (as_getter field name c); [| discriminate]. now inversion Ht.
Qed.

(** X11. The class [SerializerMeta.__new__] returns: the names of its field
    map are distinct; its plan is the compilation of its field map, with one
    record per field, in the order of the field map, each labelled with the
    label of the field or, without one, with its name. *)
Theorem new_class_plan_follows_field_map :
  forall type___new__ attrs cls,
    SerializerMeta___new__ type___new__ attrs = Ok cls ->
    NoDup (dict_keys (_field_map cls))
    /\ SerializerMeta__compile_fields (_field_map cls) cls =
       Ok (_compiled_fields cls)
    /\ List.length (_compiled_fields cls) = List.length (_field_map cls)
    /\ map label_of (_compiled_fields cls) =
       map (fun kv : string * Field => py_or (label (snd kv)) (fst kv))
           (_field_map cls).
Proof.
  intros type_new attrs cls Hnew.
  destruct (SerializerMeta___new___inv _ _ _ Hnew) as (_ & Hfm & Hplan).
  split; [rewrite Hfm; apply SerializerMeta__get_fields_NoDup |].
  split; [exact Hplan |].
  exact (SerializerMeta__compile_fields_labels _ _ _ Hplan).
Qed.

Lemma dict_get_body_field_items attrs name field :
  dict_get attrs name = Some (AField field) ->
  dict_get (body_field_items attrs) name = Some field.
Proof.
  induction attrs as [| [k a] attrs IH]; [discriminate |].
  cbn [dict_get body_field_items flat_map snd fst].
  destruct (String.eqb k name) eqn:E.
  - intros H. inversion H; subst a. cbn. now rewrite E.
  - intros H. destruct a; cbn; try rewrite E; now apply IH.
Qed.

Lemma dict_get_In {V : Type} (d : pydict V) (k : string) (v : V) :
  dict_get d k = Some v -> In (k, v) d.
Proof.
  induction d as [| [k' v'] d IH]; [discriminate |].
  cbn. destruct (String.eqb k' k) eqn:E.
  - apply String.eqb_eq in E. intros H. inversion H; subst. now left.
  - intros H. right. now apply IH.
Qed.

Lemma SerializerMeta__compile_fields_fails
    (c : SerializerCls (World := World)) name field e :
  _compile_field_to_tuple field name c = Raise e ->
  forall field_map,
    In (name, field) field_map ->
    exists e', SerializerMeta__compile_fields field_map c = Raise e'.
Proof.
  intros Hf. induction field_map as [| [n f] fm IH]; intros Hin;
    [destruct Hin |].
  cbn [SerializerMeta__compile_fields].
  destruct Hin as [Heq | Hin].
  - inversion Heq; subst. rewrite Hf. now exists e.
  - destruct (_compile_field_to_tuple f n c) as [t | e0]; [| now exists e0].
    destruct (IH Hin) as [e' He']. rewrite He'. now exists e'.
Qed.

(** X12. A class body that declares a [MethodField] naming an attribute the
    class does not have ([getattr] on the class raises) does not give a
    class: [SerializerMeta.__new__] raises while it compiles the fields,
    before any object is serialized. *)
Theorem method_field_without_method_fails_at_class_creation :
  forall (type___new__ :
            pydict class_attr -> result (SerializerCls (World := World)))
         attrs name m a real e,
    NoDup (dict_keys attrs) ->
    dict_get attrs name = Some (AField (MethodField m a)) ->
    type___new__ (filter (fun kv => negb (is_AField (snd kv))) attrs) =
      Ok real ->
    class_getattr real
      (match m with None => "get_" ++ name | Some m' => m' end) = Raise e ->
    exists e', SerializerMeta___new__ type___new__ attrs = Raise e'.
Proof.
  intros type_new attrs name m a real e Hnd Hfield Hreal Hmethod.
  unfold SerializerMeta___new__.
  fold (class_body_fields attrs). fold (class_body_without_fields attrs).
  rewrite (class_body_without_fields_filter attrs Hnd),
          (class_body_fields_items attrs Hnd), Hreal.
  assert (Hc : _compile_field_to_tuple (MethodField m a) name real = Raise e).
  { unfold _compile_field_to_tuple. cbn [as_getter MethodField].
    unfold MethodField_as_getter. now rewrite Hmethod. }
  assert (Hin : In (name, MethodField m a)
                   (SerializerMeta__get_fields (body_field_items attrs) real)).
  { apply dict_get_In. rewrite SerializerMeta__get_fields_merge.
    rewrite (dict_get_update _ (body_field_items_NoDup attrs Hnd)).
    now rewrite (dict_get_body_field_items _ _ _ Hfield). }
  destruct (SerializerMeta__compile_fields_fails real _ _ _ Hc _ Hin)
    as [e' He'].
  rewrite He'. now exists e'.
Qed.

Lemma dict_ext {V : Type} (d1 : pydict V) :
  forall d2,
    NoDup (dict_keys d1) ->
    dict_keys d1 = dict_keys d2 ->
    (forall k, dict_get d1 k = dict_get d2 k) ->
    d1 = d2.
Proof.
  induction d1 as [| [k v] d1 IH]; intros [| [k' v'] d2] Hnd Hkeys Hget;
    try discriminate; [reflexivity |].
  cbn [dict_keys map fst] in Hnd, Hkeys.
  inversion Hnd as [| ? ? Hk Hnd']; subst. inversion Hkeys; subst k'.
  pose proof (Hget k) as Hv. cbn in Hv. rewrite String.eqb_refl in Hv.
  inversion Hv; subst v'. f_equal. apply IH; [exact Hnd' | assumption |].
  intros k0. specialize (Hget k0). cbn in Hget.
  destruct (String.eqb k k0) eqn:E; [| exact Hget].
  apply String.eqb_eq in E. subst k0.
  rewrite (dict_get_absent d1 k Hk). symmetry. apply dict_get_absent.
  unfold dict_keys. now rewrite <- H1.
Qed.

Lemma first_occurrences_seen (l : list string) :
  forall seen,
    (forall k, In k l -> In k seen) -> first_occurrences seen l = [].
Proof.
  induction l as [| k l IH]; intros seen H; [reflexivity |].
  cbn [first_occurrences].
  rewrite (proj2 (mem_string_In k seen)) by (apply H; now left).
  apply IH. intros k0 H0. apply H. now right.
Qed.

Lemma dict_get_present {V : Type} (d : pydict V) (k : string) :
  dict_get d k = None -> ~ In k (dict_keys d).
Proof.
  induction d as [| [k' v] d IH]; [auto |].
  cbn. destruct (String.eqb k' k) eqn:E; [discriminate |].
  intros H [-> | Hin]; [now rewrite String.eqb_refl in E | now apply IH].
Qed.

(** Updating a dictionary with one that starts with its keys gives the
    latter. *)
Lemma dict_update_absorb {V : Type} (x m : pydict V) (t : list string) :
  NoDup (dict_keys m) ->
  dict_keys m = (dict_keys x ++ t)%list ->
  dict_update x m = m.
Proof.
  intros Hnd Hkeys.
  assert (Hk : dict_keys (dict_update x m) = dict_keys m).
  { rewrite dict_keys_update, Hkeys, first_occurrences_app.
    rewrite (first_occurrences_seen (dict_keys x)) by auto.
    cbn [app]. rewrite app_nil_r. f_equal.
    rewrite Hkeys in Hnd.
    rewrite first_occurrences_NoDup by (now apply NoDup_app_remove_l in Hnd).
    apply forallb_filter_id, forallb_forall. intros k Hin.
    destruct (mem_string k (dict_keys x)) eqn:E; [| reflexivity].
    apply mem_string_In in E. exfalso.
    revert Hnd E Hin. clear. induction (dict_keys x) as [| a l IH]; cbn.
    - intros _ [].
    - intros Hnd [-> | E] Hin.
      + inversion Hnd as [| ? ? Hn _]; subst. apply Hn.
        apply in_or_app. now right.
      + inversion Hnd; subst. now apply IH. }
  apply dict_ext; [now rewrite Hk | exact Hk |].
  intros k. rewrite (dict_get_update _ Hnd).
  destruct (dict_get m k) eqn:E; [reflexivity |].
  apply dict_get_absent. apply dict_get_present in E.
  intros Hin. apply E. rewrite Hkeys. apply in_or_app. now left.
Qed.

Lemma subclass_ancestors_fields base attrs :
  ancestors_fields (type___new___subclass base attrs) =
  dict_update (ancestors_fields base) (_field_map base).
Proof.
  unfold ancestors_fields, type___new___subclass. cbn [__mro__ tl rev].
  rewrite filter_app, map_app, fold_left_app. reflexivity.
Qed.

Lemma subclass_inherited_fields base attrs :
  inherited_fields (type___new___subclass base attrs) =
  dict_update (dict_update (ancestors_fields base) (_field_map base))
              (_field_map base).
Proof.
  unfold inherited_fields, merge_sequence, ancestors_fields,
    type___new___subclass. cbn [__mro__ tl rev].
  rewrite !filter_app, !map_app, !fold_left_app. reflexivity.
Qed.

Lemma new_subclass_field_map base attrs cls :
  NoDup (dict_keys attrs) ->
  SerializerMeta___new__
    (fun body => Ok (type___new___subclass base body)) attrs = Ok cls ->
  _field_map cls =
    dict_update
      (inherited_fields (type___new___subclass base attrs))
      (body_field_items attrs)
  /\ ancestors_fields cls = ancestors_fields (type___new___subclass base attrs).
Proof.
  intros Hnd Hnew.
  destruct (SerializerMeta___new___inv _ _ _ Hnew) as (Hreal & Hfm & _).
  rewrite (class_body_fields_items attrs Hnd) in Hfm.
  inversion Hreal as [Hcls]. rewrite Hfm, <- Hcls.
  rewrite SerializerMeta__get_fields_merge. split; reflexivity.
Qed.

(** The field map of a class obtained by single inheritance has distinct
    names and starts with the names of the merge of its ancestors. *)
Lemma single_inheritance_field_map Serializer_getattr cls :
  single_inheritance Serializer_getattr cls ->
  NoDup (dict_keys (_field_map cls))
  /\ exists t,
       dict_keys (_field_map cls) =
       (dict_keys (ancestors_fields cls) ++ t)%list.
Proof.
  induction 1 as [| base cls attrs Hbase [Hnd [t Ht]] Hattrs Hnew].
  - split; [constructor | now exists []].
  - destruct (new_subclass_field_map base attrs cls Hattrs Hnew)
      as [Hfm Hanc].
    rewrite subclass_inherited_fields in Hfm.
    rewrite subclass_ancestors_fields in Hanc.
    rewrite (dict_update_absorb _ _ t Hnd Ht) in Hfm, Hanc.
    rewrite (dict_update_absorb _ _ [] Hnd) in Hfm
      by now rewrite app_nil_r.
    rewrite Hfm, Hanc. split; [now apply dict_update_NoDup |].
    rewrite dict_keys_update. eexists. reflexivity.
Qed.

(** What a class created from a base in a chain of single inheritance
    inherits is the field map of the base. *)
Lemma single_inheritance_inherited Serializer_getattr base attrs :
  single_inheritance Serializer_getattr base ->
  inherited_fields (type___new___subclass base attrs) = _field_map base.
Proof.
  intros Hbase.
  destruct (single_inheritance_field_map _ base Hbase) as [Hnd [t Ht]].
  rewrite subclass_inherited_fields.
  rewrite (dict_update_absorb _ _ t Hnd Ht).
  now rewrite (dict_update_absorb _ _ [] Hnd) by now rewrite app_nil_r.
Qed.

(** X14. Along a chain of single inheritance from [Serializer], the field
    map of a subclass is the field map of its base updated with the fields
    of the class body: the names of the base keep their places, a redeclared
    name takes the new field, and the new names follow in declaration
    order. *)
Theorem subclass_field_map_updates_the_base :
  forall Serializer_getattr base attrs cls,
    single_inheritance Serializer_getattr base ->
    NoDup (dict_keys attrs) ->
    SerializerMeta___new__
      (fun body => Ok (type___new___subclass base body)) attrs = Ok cls ->
    _field_map cls = dict_update (_field_map base) (body_field_items attrs)
    /\ dict_keys (_field_map cls) =
       (dict_keys (_field_map base)
          ++ filter (fun k => negb (mem_string k (dict_keys (_field_map base))))
               (dict_keys (body_field_items attrs)))%list
    /\ (forall name field,
          dict_get attrs name = Some (AField field) ->
          dict_get (_field_map cls) name = Some field).
Proof.
  intros Serializer_getattr base attrs cls Hbase Hattrs Hnew.
  destruct (new_subclass_field_map base attrs cls Hattrs Hnew) as [Hfm _].
  rewrite (single_inheritance_inherited _ base attrs Hbase) in Hfm.
  pose proof (body_field_items_NoDup attrs Hattrs) as Hbody.
  rewrite Hfm. repeat split.
  - rewrite dict_keys_update. f_equal. now apply first_occurrences_NoDup.
  - intros name field Hget. rewrite (dict_get_update _ Hbody).
    now rewrite (dict_get_body_field_items _ _ _ Hget).
Qed.


End MoreCompilerProperties.

(** * The properties on the examples *)

Example person_plan :
  SerializerMeta__compile_fields person_fields DictSerializer_class =
  Ok [name_record; nickname_record; age_record].
Proof. reflexivity. Qed.

Example Foo_serialized :
  match SerializerMeta___new__
          (fun body => Ok (type___new___subclass Serializer_class body))
          Foo_attrs with
  | Ok FooSerializer =>
      Serializer_data FooSerializer (a_serializer foo) 0 =
      (Ok (VDict [("plus", VInt 15); ("minus", VInt (-5))]),
       {| self_field := Field_defaults; instance := foo; many := false;
          _data := VDict [("plus", VInt 15); ("minus", VInt (-5))] |}, 0)
  | Raise _ => False
  end.
Proof. reflexivity. Qed.

Lemma retrieved_value_is_called_and_converted_witness :
  _serialize_loop (a_serializer shy) shy [] [] 0 = (Ok [], 0)
  /\ call_unary (UnaryGetter (attrgetter "age")) shy 0 =
     (Ok (VCallable told_age), 0)
  /\ Serializer__serialize (a_serializer shy) shy [called_age_record] 0 =
     (Ok [("age", VInt 41)], 1).
Proof.
  split; [reflexivity | split; [reflexivity |]].
  destruct (retrieved_value_is_called_and_converted
              (a_serializer shy) shy [] "age"
              (UnaryGetter (attrgetter "age")) (Some (PlainToValue example_int))
              true false [] 0 _ 0 _ 0 eq_refl eq_refl) as (_ & Hcall & _).
  exact (Hcall eq_refl eq_refl told_age eq_refl).
Defined.

(** C1 as stated fails on a required record whose bound converter has a
    false truth value: the getter returns [1], the converter would turn it
    into [0], and the engine writes [1]. *)
Lemma falsy_converter_is_skipped :
  _compile_field_to_tuple falsy_field "x" DictSerializer_class = Ok falsy_record
  /\ call_unary (getter_of falsy_record) x_is_one 0 = (Ok (VInt 1), 0)
  /\ tv_call falsy_to_zero (VInt 1) 0 = (Ok (VInt 0), 0)
  /\ Serializer__serialize (a_serializer x_is_one) x_is_one [falsy_record] 0 =
     (Ok [("x", VInt 1)], 0)
  /\ Serializer__serialize (a_serializer x_is_one) x_is_one [falsy_record] 0 <>
     bind (tv_call falsy_to_zero (VInt 1))
          (fun y => ret (dict_set [] "x" y)) 0.
Proof.
  repeat (split; [reflexivity |]). cbv. discriminate.
Qed.

Lemma retrieval_failure_required_or_omitted_witness :
  _serialize_loop (a_serializer ann_without_nickname) ann_without_nickname
    [name_record] [] 0 = (Ok [("name", VStr "Ann")], 0)
  /\ call_unary (UnaryGetter (itemgetter "nickname")) ann_without_nickname 0 =
     (Raise (Exn KeyError "nickname"), 0)
  /\ (exn_cls (Exn KeyError "nickname") = KeyError
      \/ exn_cls (Exn KeyError "nickname") = AttributeError)
  /\ Serializer__serialize (a_serializer ann_without_nickname)
       ann_without_nickname [name_record; nickname_record; age_record] 0 =
     (Ok [("name", VStr "Ann"); ("age", VInt 41)], 0).
Proof.
  split; [reflexivity | split; [reflexivity | split; [now left |]]].
  destruct (retrieval_failure_required_or_omitted
              (a_serializer ann_without_nickname) ann_without_nickname
              [name_record] "nickname" (UnaryGetter (itemgetter "nickname"))
              None false false [age_record] 0 _ 0 _ 0 eq_refl eq_refl
              (or_introl eq_refl)) as (_ & Homit & _).
  exact (Homit eq_refl).
Defined.

Lemma call_and_conversion_failures_propagate_witness :
  _serialize_loop (a_serializer ann_of_bad_age) ann_of_bad_age
    [name_record; nickname_record] [] 0 =
    (Ok [("name", VStr "Ann"); ("nickname", VNone)], 0)
  /\ call_unary (UnaryGetter (itemgetter "age")) ann_of_bad_age 0 =
     (Ok (VStr "old"), 0)
  /\ false || negb (is_None (VStr "old" : Val)) = true
  /\ example_int (VStr "old") 0 =
     (Raise (Exn ValueError "invalid literal for int()"), 0)
  /\ Serializer__serialize (a_serializer ann_of_bad_age) ann_of_bad_age
       [name_record; nickname_record; age_record] 0 =
     (Raise (Exn ValueError "invalid literal for int()"), 0).
Proof.
  repeat (split; [reflexivity |]).
  destruct (@call_and_conversion_failures_propagate nat) as [Hengine _].
  destruct (Hengine (a_serializer ann_of_bad_age) ann_of_bad_age
              [name_record; nickname_record] "age"
              (UnaryGetter (itemgetter "age")) (Some (PlainToValue example_int))
              false false
              [] 0 _ 0 _ 0 (Exn ValueError "invalid literal for int()") 0
              eq_refl eq_refl eq_refl) as [_ Hconv].
  exact (Hconv (PlainToValue example_int) (VStr "old") 0
           eq_refl eq_refl eq_refl eq_refl).
Defined.

Lemma context_field_writes_getter_result_witness :
  _serialize_loop (a_serializer foo) foo [] [] 0 = (Ok [], 0)
  /\ Serializer__serialize (a_serializer foo) foo
       [("plus", BinaryGetter get_plus, Some (PlainToValue example_int), true,
         false, true);
        ("minus", BinaryGetter do_minus, None, false, true, true)] 0 =
     (Ok [("plus", VInt 15); ("minus", VInt (-5))], 0).
Proof.
  split; [reflexivity |].
  destruct (@context_field_writes_getter_result nat) as [Hengine _].
  exact (Hengine (a_serializer foo) foo [] "plus" (BinaryGetter get_plus)
           (Some (PlainToValue example_int)) true false
           [("minus", BinaryGetter do_minus, None, false, true, true)]
           0 _ 0 eq_refl).
Defined.

Lemma other_getter_exceptions_propagate_witness :
  _serialize_loop (a_serializer (VList [])) (VList []) [] [] 0 = (Ok [], 0)
  /\ call_unary (UnaryGetter (itemgetter "nickname")) (VList []) 0 =
     (Raise (Exn TypeError "indices must be integers"), 0)
  /\ exn_cls (Exn TypeError "indices must be integers") <> KeyError
  /\ exn_cls (Exn TypeError "indices must be integers") <> AttributeError
  /\ Serializer__serialize (a_serializer (VList [])) (VList [])
       [nickname_record; age_record] 0 =
     (Raise (Exn TypeError "indices must be integers"), 0).
Proof.
  split; [reflexivity | split; [reflexivity |]].
  split; [discriminate | split; [discriminate |]].
  apply (other_getter_exceptions_propagate
           (a_serializer (VList [])) (VList []) [] "nickname"
           (UnaryGetter (itemgetter "nickname")) None false false [age_record]
           0 [] 0 _ 0 eq_refl eq_refl); discriminate.
Defined.

Lemma data_is_computed_once_witness :
  let r : Val := VDict [("name", VStr "Ann")] in
  let self1 :=
    {| self_field := Field_defaults; instance := ann; many := false;
       _data := r |} in
  Serializer_data CountingSerializer (a_serializer ann) 0 = (Ok r, self1, 1)
  /\ _data self1 = r
  /\ Serializer_data CountingSerializer self1 1 = (Ok r, self1, 1).
Proof.
  intros r self1. split; [reflexivity |].
  destruct (data_is_computed_once CountingSerializer (a_serializer ann) 0)
    as [_ Hcached].
  destruct (Hcached r self1 1 eq_refl) as [Hstored Hagain].
  split; [exact Hstored | exact (Hagain 1)].
Defined.

Lemma init_rejects_data_witness :
  (VDict [] : Val) <> VNone
  /\ Serializer___init__ ann false (VDict []) VNone Field_defaults =
     Raise (Exn RuntimeError
              "serpy serializers do not support input validation").
Proof.
  split; [discriminate |].
  destruct (init_rejects_data ann false (VDict []) VNone Field_defaults)
    as [Hraise _].
  apply Hraise. discriminate.
Defined.


Lemma default_getter_and_label_witness :
  as_getter (mkField (Field___init__ (Some "full_name") false None true))
    "name" DictSerializer_class = Ok None
  /\ exists t,
       _compile_field_to_tuple
         (mkField (Field___init__ (Some "full_name") false None true))
         "name" DictSerializer_class = Ok t
       /\ getter_of t = UnaryGetter (itemgetter "full_name")
       /\ label_of t = "name".
Proof.
  split; [reflexivity |].
  destruct (default_getter_and_label
              (mkField (Field___init__ (Some "full_name") false None true))
              "name" DictSerializer_class eq_refl) as [Ht _].
  exact Ht.
Defined.

(** C7 as stated fails on [Field(attr='', label='')] declared as [nick] in a
    [DictSerializer_class]: [as_getter] returns [None], a source name and a label
    are set, and the record reads the key [nick] and is labelled [nick]. *)
Lemma empty_source_name_is_not_used :
  as_getter empty_names_field "nick" DictSerializer_class = Ok None
  /\ attr empty_names_field = Some ""
  /\ label empty_names_field = Some ""
  /\ exists t,
       _compile_field_to_tuple empty_names_field "nick"
         DictSerializer_class = Ok t
       /\ getter_of t <>
          UnaryGetter
            (default_getter DictSerializer_class
               match attr empty_names_field with
               | Some a => a
               | None => "nick"
               end)
       /\ label_of t <>
          match label empty_names_field with
          | Some l => l
          | None => "nick"
          end.
Proof.
  repeat (split; [reflexivity |]).
  eexists. split; [reflexivity |]. split.
  - cbn. intros H.
    apply (f_equal (fun g => call_unary g (VDict [("", VInt 1)]) 0)) in H.
    cbv in H. discriminate.
  - cbn. discriminate.
Qed.



Lemma serialized_keys_are_labels_witness :
  Serializer__serialize (a_serializer ann_without_nickname)
    ann_without_nickname [name_record; nickname_record; age_record] 0 =
    (Ok [("name", VStr "Ann"); ("age", VInt 41)], 0)
  /\ In "age" (dict_keys [("name", VStr "Ann" : Val); ("age", VInt 41)])
  /\ In "age" (map label_of [name_record; nickname_record; age_record]).
Proof.
  split; [reflexivity |]. split; [cbn; tauto |].
  apply (serialized_keys_are_labels (a_serializer ann_without_nickname)
           ann_without_nickname [name_record; nickname_record; age_record]
           0 _ 0 eq_refl).
  cbn. tauto.
Defined.

Lemma required_plan_writes_every_label_witness :
  forallb always_writes plus_minus_plus = true
  /\ Serializer__serialize (a_serializer foo) foo plus_minus_plus 0 =
     (Ok [("plus", VInt 10); ("minus", VInt (-5))], 0)
  /\ dict_keys [("plus", VInt 10 : Val); ("minus", VInt (-5))] =
     first_occurrences [] (map label_of plus_minus_plus).
Proof.
  split; [reflexivity |]. split; [reflexivity |].
  exact (required_plan_writes_every_label (a_serializer foo) foo
           plus_minus_plus 0 _ 0 eq_refl eq_refl).
Defined.

Lemma many_serializes_each_subject_in_order_witness :
  many (many_serializer people) = true
  /\ py_iter people = Ok [ann; ann_without_nickname]
  /\ Serializer_to_value PersonSerializer (many_serializer people) people 0 =
     (Ok (VList [ann_serialized;
                 VDict [("name", VStr "Ann"); ("age", VInt 41)]]), 0)
  /\ exists l,
       VList [ann_serialized; VDict [("name", VStr "Ann"); ("age", VInt 41)]] =
       VList l
       /\ List.length l = 2.
Proof.
  split; [reflexivity |]. split; [reflexivity |]. split; [reflexivity |].
  destruct (many_serializes_each_subject_in_order PersonSerializer
              (many_serializer people) people [ann; ann_without_nickname]
              0 _ 0 eq_refl eq_refl eq_refl) as (l & Hl & Hlen & _).
  exists l. split; [exact Hl | exact Hlen].
Defined.

Lemma many_stops_at_first_failure_witness :
  many (many_serializer people_with_a_stranger) = true
  /\ py_iter people_with_a_stranger = Ok ([ann] ++ VDict [] :: [ann])%list
  /\ serialize_each (many_serializer people_with_a_stranger)
       (_compiled_fields PersonSerializer) [ann] 0 = (Ok [ann_serialized], 0)
  /\ Serializer__serialize (many_serializer people_with_a_stranger)
       (VDict []) (_compiled_fields PersonSerializer) 0 =
     (Raise (Exn KeyError "name"), 0)
  /\ Serializer_to_value PersonSerializer
       (many_serializer people_with_a_stranger) people_with_a_stranger 0 =
     (Raise (Exn KeyError "name"), 0).
Proof.
  repeat (split; [reflexivity |]).
  exact (many_stops_at_first_failure PersonSerializer
           (many_serializer people_with_a_stranger) people_with_a_stranger
           [ann] (VDict []) [ann] 0 [ann_serialized] 0 (Exn KeyError "name") 0
           eq_refl eq_refl eq_refl eq_refl).
Defined.

Lemma failed_read_is_not_cached_witness :
  Serializer_data PersonSerializer (a_serializer (VDict [])) 0 =
    (Raise (Exn KeyError "name"), a_serializer (VDict []), 0)
  /\ _data (a_serializer (VDict [])) = VNone
  /\ Serializer_to_value PersonSerializer (a_serializer (VDict []))
       (VDict []) 0 = (Raise (Exn KeyError "name"), 0).
Proof.
  split; [reflexivity |].
  destruct (failed_read_is_not_cached PersonSerializer
              (a_serializer (VDict [])) 0 (Exn KeyError "name")
              (a_serializer (VDict [])) 0 eq_refl) as (_ & Hd & Hv & _).
  split; [exact Hd | exact Hv].
Defined.

Lemma optional_item_fields_project_the_dictionary_witness :
  default_getter DictSerializer_class = DictSerializer_default_getter
  /\ NoDup ["nickname"; "name"; "town"]
  /\ exists plan,
       SerializerMeta__compile_fields
         (map (fun n => (n, mkField (Field___init__ None false None false)))
              ["nickname"; "name"; "town"]) DictSerializer_class = Ok plan
       /\ Serializer__serialize (a_serializer ann) ann plan 0 =
          (Ok [("nickname", VNone); ("name", VStr "Ann")], 0).
Proof.
  assert (Hnd : NoDup ["nickname"; "name"; "town"]).
  { repeat constructor; cbn; intuition discriminate. }
  split; [reflexivity |]. split; [exact Hnd |].
  exact (optional_item_fields_project_the_dictionary DictSerializer_class
           ["nickname"; "name"; "town"] (a_serializer ann)
           [("name", VStr "Ann"); ("nickname", VNone); ("age", VStr "41")]
           0 eq_refl Hnd).
Defined.

Lemma required_item_fields_need_every_key_witness :
  default_getter DictSerializer_class = DictSerializer_default_getter
  /\ NoDup ["name"; "town"; "street"]
  /\ exists plan,
       SerializerMeta__compile_fields
         (map (fun n => (n, mkField (Field___init__ None false None true)))
              ["name"; "town"; "street"]) DictSerializer_class = Ok plan
       /\ Serializer__serialize (a_serializer ann) ann plan 0 =
          (Raise (Exn KeyError "town"), 0).
Proof.
  assert (Hnd : NoDup ["name"; "town"; "street"]).
  { repeat constructor; cbn; intuition discriminate. }
  split; [reflexivity |]. split; [exact Hnd |].
  exact (required_item_fields_need_every_key DictSerializer_class
           ["name"; "town"; "street"] (a_serializer ann)
           [("name", VStr "Ann"); ("nickname", VNone); ("age", VStr "41")]
           0 eq_refl Hnd).
Defined.

Lemma fields_for_every_key_give_the_dictionary_back_witness :
  default_getter DictSerializer_class = DictSerializer_default_getter
  /\ NoDup (dict_keys [("name", VStr "Ann" : Val); ("nickname", VNone);
                        ("age", VStr "41")])
  /\ exists plan,
       SerializerMeta__compile_fields
         (map (fun n => (n, mkField (Field___init__ None false None true)))
              ["name"; "nickname"; "age"]) DictSerializer_class = Ok plan
       /\ Serializer__serialize (a_serializer ann) ann plan 0 = (Ok
            [("name", VStr "Ann"); ("nickname", VNone); ("age", VStr "41")], 0).
Proof.
  assert (Hnd : NoDup (dict_keys [("name", VStr "Ann" : Val);
                                  ("nickname", VNone); ("age", VStr "41")])).
  { repeat constructor; cbn; intuition discriminate. }
  split; [reflexivity |]. split; [exact Hnd |].
  exact (fields_for_every_key_give_the_dictionary_back DictSerializer_class
           (a_serializer ann) _ 0 eq_refl Hnd).
Defined.

Lemma nested_serializer_field_runs_the_nested_plan_witness :
  _serialize_loop (a_serializer a_pet) a_pet [] [] 0 = (Ok [], 0)
  /\ call_unary (UnaryGetter (attrgetter "owner")) a_pet 0 = (Ok ann, 0)
  /\ Serializer__serialize (a_serializer a_pet) a_pet
       [("owner", UnaryGetter (attrgetter "owner"),
         Some (MethodToValue
                 (Serializer_to_value PersonSerializer (a_serializer VNone))),
         false, true, false)] 0 =
     (Ok [("owner", ann_serialized)], 0).
Proof.
  split; [reflexivity |]. split; [reflexivity |].
  destruct (nested_serializer_field_runs_the_nested_plan PersonSerializer
              (a_serializer VNone) "owner" Serializer_class
              (a_serializer a_pet)
              a_pet [] [] 0 [] 0 ann 0 eq_refl eq_refl) as (_ & Hrun & _).
  exact (Hrun eq_refl).
Defined.

Lemma new_takes_the_fields_out_of_the_body_witness :
  NoDup (dict_keys Foo_attrs)
  /\ exists cls,
       SerializerMeta___new__
         (fun body => Ok (type___new___subclass Serializer_class body))
         Foo_attrs = Ok cls
       /\ Ok (type___new___subclass Serializer_class
                [("get_plus", AMethod get_plus); ("do_minus", AMethod do_minus)])
          = Ok (real_cls cls)
       /\ dict_keys (_field_map cls) = ["plus"; "minus"].
Proof.
  assert (Hnd : NoDup (dict_keys Foo_attrs)).
  { repeat constructor; cbn; intuition discriminate. }
  split; [exact Hnd |]. eexists. split; [reflexivity |].
  destruct (new_takes_the_fields_out_of_the_body
              (fun body => Ok (type___new___subclass Serializer_class body))
              Foo_attrs _ Hnd eq_refl)
    as [Hcls Hfm].
  split; [exact Hcls | now rewrite Hfm].
Defined.

Lemma new_class_plan_follows_field_map_witness :
  exists cls,
    SerializerMeta___new__
      (fun body => Ok (type___new___subclass Serializer_class body))
      Foo_attrs = Ok cls
    /\ List.length (_compiled_fields cls) = List.length (_field_map cls)
    /\ map label_of (_compiled_fields cls) = ["plus"; "minus"].
Proof.
  eexists. split; [reflexivity |].
  destruct (new_class_plan_follows_field_map
              (fun body => Ok (type___new___subclass Serializer_class body))
              Foo_attrs _ eq_refl)
    as (_ & _ & Hlen & Hlab).
  split; [exact Hlen | now rewrite Hlab].
Defined.

Lemma method_field_without_method_fails_at_class_creation_witness :
  NoDup (dict_keys body_without_method)
  /\ dict_get body_without_method "total" =
     Some (AField (MethodField None Field_defaults))
  /\ class_getattr
       (type___new___subclass Serializer_class
          (filter (fun kv => negb (is_AField (snd kv))) body_without_method))
       ("get_" ++ "total") = Raise (Exn AttributeError "get_total")
  /\ exists e,
       SerializerMeta___new__
         (fun body => Ok (type___new___subclass Serializer_class body))
         body_without_method = Raise e.
Proof.
  assert (Hnd : NoDup (dict_keys body_without_method)).
  { repeat constructor; cbn; intuition discriminate. }
  split; [exact Hnd |]. split; [reflexivity |]. split; [reflexivity |].
  exact (method_field_without_method_fails_at_class_creation
           (fun body => Ok (type___new___subclass Serializer_class body))
           body_without_method "total" None Field_defaults _
           (Exn AttributeError "get_total") Hnd eq_refl eq_refl eq_refl).
Defined.

Lemma subclass_field_map_updates_the_base_witness :
  single_inheritance example_getattr A_class
  /\ NoDup (dict_keys B_body)
  /\ exists cls,
       SerializerMeta___new__
         (fun body => Ok (type___new___subclass A_class body)) B_body = Ok cls
       /\ dict_keys (_field_map cls) = ["a"; "b"; "c"]
       /\ dict_get (_field_map cls) "b" =
          Some (mkField (Field___init__ (Some "other") false None true)).
Proof.
  assert (HA : single_inheritance example_getattr A_class).
  { apply (single_subclass example_getattr Serializer_class A_class A_body
             (single_Serializer example_getattr)).
    - repeat constructor; cbn; intuition discriminate.
    - reflexivity. }
  assert (Hnd : NoDup (dict_keys B_body)).
  { repeat constructor; cbn; intuition discriminate. }
  split; [exact HA |]. split; [exact Hnd |]. eexists. split; [reflexivity |].
  destruct (subclass_field_map_updates_the_base example_getattr A_class B_body
              _ HA Hnd eq_refl)
    as (_ & Hkeys & Hget).
  split; [exact Hkeys | exact (Hget "b" _ eq_refl)].
Defined.

Lemma last_record_overwrites_its_label_witness :
  _serialize_loop (a_serializer foo) foo
    [("plus", UnaryGetter (attrgetter "baz"), None, false, true, false);
     ("minus", BinaryGetter do_minus, None, false, true, true)] [] 0 =
    (Ok [("plus", VInt 10); ("minus", VInt (-5))], 0)
  /\ call_binary (BinaryGetter get_plus) (a_serializer foo) foo 0 =
     (Ok (VInt 15), 0)
  /\ exists out,
       Serializer__serialize (a_serializer foo) foo
         ([("plus", UnaryGetter (attrgetter "baz"), None, false, true, false);
           ("minus", BinaryGetter do_minus, None, false, true, true)]
            ++ [("plus", BinaryGetter get_plus, None, false, true, true)])%list
         0 = (Ok out, 0)
       /\ dict_get out "plus" = Some (VInt 15).
Proof.
  split; [reflexivity |]. split; [reflexivity |].
  destruct (last_record_overwrites_its_label (a_serializer foo) foo
              [("plus", UnaryGetter (attrgetter "baz"), None, false, true,
                false);
               ("minus", BinaryGetter do_minus, None, false, true, true)]
              "plus" (BinaryGetter get_plus) None false true 0 _ 0 _ 0
              eq_refl eq_refl) as (out & Hrun & Hget & _).
  exists out. split; [exact Hrun | exact Hget].
Defined.
